(** * Pomodorino: the session/countdown engine of [pomodoro_pyqt.py]

    A shallow embedding of the two variants of the timer found in the
    repository:

    - [src/pomodoro_pyqt.py]      (the baseline window, module [Baseline]);
    - [src/src/pomodoro_pyqt.py]  (the merged window with a fullscreen
      mode, module [Merged]).

    Both share the class [TimerThread] verbatim.  Python integers are
    modelled by [Z], the session type by the very strings the program
    compares against, and the worker thread by an explicit program counter
    over the body of [TimerThread.run], stepped one statement group at a
    time and interleaved freely with the operations of the GUI thread.

    Signals emitted by the worker thread are received by slots of
    [PomodoroApp], an object that lives in the GUI thread: such a delivery
    is posted to the GUI thread's event queue and runs when the event loop
    is re-entered, i.e. between two operations of the GUI thread and never
    in the middle of one.  The field [pending] is that queue. *)

From Stdlib Require Import ZArith String Ascii DecimalString List Bool Lia.
Import ListNotations.
Open Scope string_scope.
Open Scope Z_scope.
Open Scope list_scope.

(** ** Timer constants ([PomodoroApp.__init__]) *)

Definition POMODORO_DURATION : Z := 25 * 60.
Definition SHORT_BREAK : Z := 5 * 60.
Definition LONG_BREAK : Z := 15 * 60.
Definition POMODOROS_BEFORE_LONG_BREAK : Z := 4.

(** The chain
    [if s == "Work": ... elif s == "Short Break": ... else: ...]
    that [set_session], [start_timer], [reset_timer], [timer_ended] and
    [update_display] each spell out. *)
Definition session_duration (s : string) : Z :=
  if String.eqb s "Work" then POMODORO_DURATION
  else if String.eqb s "Short Break" then SHORT_BREAK
  else LONG_BREAK.

(** ** Signals of [TimerThread] *)

Inductive Signal : Type :=
| time_updated (seconds : Z)
| timer_ended.

Definition is_tick (sg : Signal) : bool :=
  match sg with time_updated _ => true | timer_ended => false end.

Definition is_expiry (sg : Signal) : bool :=
  match sg with time_updated _ => false | timer_ended => true end.

(** ** The worker thread *)

Module TimerThread.

(** Where the worker is inside [run]:
    - [Entry]     [start()] was called, [run] has not begun;
    - [LoopHead]  about to evaluate the guard of the [while];
    - [Sleeping]  the tick was emitted, the worker is in [time.sleep(1)];
    - [LoopExit]  the guard failed, about to test [self.remaining <= 0];
    - [Finished]  [run] has returned ([isFinished()] holds). *)
Inductive Pc : Type := Entry | LoopHead | Sleeping | LoopExit | Finished.

Record t : Type := mk {
  duration : Z;
  remaining : Z;
  running : bool;
  should_stop : bool;
  pc : Pc
}.

(** [TimerThread(duration)] followed by [start()]. *)
Definition init (d : Z) : t :=
  {| duration := d; remaining := d; running := false;
     should_stop := false; pc := Entry |}.

Definition isFinished (th : t) : bool :=
  match pc th with Finished => true | _ => false end.

Definition pause (th : t) : t :=
  {| duration := duration th; remaining := remaining th; running := false;
     should_stop := should_stop th; pc := pc th |}.

Definition resume (th : t) : t :=
  {| duration := duration th; remaining := remaining th; running := true;
     should_stop := should_stop th; pc := pc th |}.

Definition stop (th : t) : t :=
  {| duration := duration th; remaining := remaining th; running := false;
     should_stop := true; pc := pc th |}.

(** The guard [self.remaining > 0 and self.running and not self.should_stop]. *)
Definition guard (th : t) : bool :=
  (0 <? remaining th) && running th && negb (should_stop th).

(** One scheduling step of [run], with the signals it emits.  The test of
    the guard and the [emit] that follows it are one step: a call of the
    GUI thread that lands between the two is placed after the tick.  The
    states reached are the same, since such a call writes flags only and
    the tick is queued behind the same signals; what this step does not
    tell is whether a tick was emitted before or after the call, and no
    statement below is about that order. *)
Definition step (th : t) : t * list Signal :=
  match pc th with
  | Entry =>
      ({| duration := duration th; remaining := duration th; running := true;
          should_stop := should_stop th; pc := LoopHead |}, [])
  | LoopHead =>
      if guard th
      then ({| duration := duration th; remaining := remaining th;
               running := running th; should_stop := should_stop th;
               pc := Sleeping |}, [time_updated (remaining th)])
      else ({| duration := duration th; remaining := remaining th;
               running := running th; should_stop := should_stop th;
               pc := LoopExit |}, [])
  | Sleeping =>
      ({| duration := duration th; remaining := remaining th - 1;
          running := running th; should_stop := should_stop th;
          pc := LoopHead |}, [])
  | LoopExit =>
      ({| duration := duration th; remaining := remaining th;
          running := running th; should_stop := should_stop th;
          pc := Finished |},
       if remaining th <=? 0 then [timer_ended] else [])
  | Finished => (th, [])
  end.

(** The worker left alone for at most [fuel] steps. *)
Fixpoint run_thread (fuel : nat) (th : t) : t * list Signal :=
  match fuel with
  | O => (th, [])
  | S fuel' =>
      if isFinished th then (th, [])
      else
        let '(th1, out1) := step th in
        let '(th2, out2) := run_thread fuel' th1 in
        (th2, out1 ++ out2)
  end.

(** An upper bound on the steps [run] still has to make. *)
Definition steps_left (th : t) : nat :=
  match pc th with
  | Entry => 2 * Z.to_nat (duration th) + 3
  | LoopHead => 2 * Z.to_nat (remaining th) + 2
  | Sleeping => 2 * Z.to_nat (remaining th - 1) + 3
  | LoopExit => 1
  | Finished => 0
  end.

(** [QThread.wait()]: the caller blocks until [run] has returned; what
    the worker emits meanwhile is returned with the joined thread. *)
Definition wait (th : t) : t * list Signal :=
  run_thread (steps_left th) th.

(** What can happen to one worker: a scheduling step of [run], or a call
    of one of its three methods from the GUI thread. *)
Inductive Event : Type := WorkerStep | CallPause | CallResume | CallStop.

Definition apply_event (e : Event) (st : t * list Signal) : t * list Signal :=
  match e with
  | WorkerStep => let '(th', out) := step (fst st) in (th', snd st ++ out)
  | CallPause => (pause (fst st), snd st)
  | CallResume => (resume (fst st), snd st)
  | CallStop => (stop (fst st), snd st)
  end.

(** The worker under an arbitrary interleaving, with all it has emitted. *)
Definition schedule (es : list Event) (th : t) : t * list Signal :=
  fold_left (fun st e => apply_event e st) es (th, []).

End TimerThread.

(** The values [d, d-1, ..., 1]. *)
Definition countdown_values (d : Z) : list Z :=
  map (fun k => d - Z.of_nat k) (seq 0 (Z.to_nat d)).

(** ** The baseline window ([src/pomodoro_pyqt.py]) *)

Module Baseline.

(** The fields of [PomodoroApp] the engine reads or writes.  The three
    button fields are the enabled flags of the widgets; [notifications]
    logs the calls of [send_notification]; [pending] is the event queue
    of the GUI thread.  The task list and the widgets that only display
    are left out: no operation below reads them. *)
Record PomodoroApp : Type := mk {
  current_session : string;
  pomodoro_count : Z;
  remaining_time : Z;
  timer_thread : option TimerThread.t;
  start_button : bool;
  pause_button : bool;
  resume_button : bool;
  notifications : list (string * string);
  pending : list Signal
}.

Definition init : PomodoroApp :=
  {| current_session := "Work"; pomodoro_count := 0;
     remaining_time := POMODORO_DURATION; timer_thread := None;
     start_button := true; pause_button := false; resume_button := false;
     notifications := []; pending := [] |}.

Definition with_session (v : string) (a : PomodoroApp) : PomodoroApp :=
  mk v (pomodoro_count a) (remaining_time a) (timer_thread a)
     (start_button a) (pause_button a) (resume_button a)
     (notifications a) (pending a).

Definition with_count (v : Z) (a : PomodoroApp) : PomodoroApp :=
  mk (current_session a) v (remaining_time a) (timer_thread a)
     (start_button a) (pause_button a) (resume_button a)
     (notifications a) (pending a).

Definition with_remaining (v : Z) (a : PomodoroApp) : PomodoroApp :=
  mk (current_session a) (pomodoro_count a) v (timer_thread a)
     (start_button a) (pause_button a) (resume_button a)
     (notifications a) (pending a).

Definition with_thread (v : option TimerThread.t) (a : PomodoroApp)
  : PomodoroApp :=
  mk (current_session a) (pomodoro_count a) (remaining_time a) v
     (start_button a) (pause_button a) (resume_button a)
     (notifications a) (pending a).

(** [start_button.setEnabled(b1); pause_button.setEnabled(b2);
    resume_button.setEnabled(b3)]. *)
Definition with_buttons (b1 b2 b3 : bool) (a : PomodoroApp) : PomodoroApp :=
  mk (current_session a) (pomodoro_count a) (remaining_time a)
     (timer_thread a) b1 b2 b3 (notifications a) (pending a).

Definition with_notifications (v : list (string * string))
  (a : PomodoroApp) : PomodoroApp :=
  mk (current_session a) (pomodoro_count a) (remaining_time a)
     (timer_thread a) (start_button a) (pause_button a) (resume_button a)
     v (pending a).

Definition with_pending (v : list Signal) (a : PomodoroApp) : PomodoroApp :=
  mk (current_session a) (pomodoro_count a) (remaining_time a)
     (timer_thread a) (start_button a) (pause_button a) (resume_button a)
     (notifications a) v.

(** [self.timer_thread is None or self.timer_thread.isFinished()]. *)
Definition no_live_thread (a : PomodoroApp) : bool :=
  match timer_thread a with
  | None => true
  | Some th => TimerThread.isFinished th
  end.

Definition set_session (session_type : string) (a : PomodoroApp)
  : PomodoroApp :=
  with_remaining (session_duration session_type)
    (with_session session_type a).

Definition reset_timer (a : PomodoroApp) : PomodoroApp :=
  let a1 :=
    match timer_thread a with
    | Some th =>
        let '(th', out) := TimerThread.wait (TimerThread.stop th) in
        with_pending (pending a ++ out) (with_thread (Some th') a)
    | None => a
    end in
  with_buttons true false false
    (with_remaining (session_duration (current_session a1)) a1).

(** [start_timer] calls itself after [reset_timer]; [fuel] bounds the
    depth of that recursion. *)
Fixpoint start_timer_rec (fuel : nat) (a : PomodoroApp)
  : option PomodoroApp :=
  match fuel with
  | O => None
  | S fuel' =>
      if no_live_thread a
      then
        let duration := session_duration (current_session a) in
        Some (with_buttons false true false
                (with_thread (Some (TimerThread.init duration)) a))
      else start_timer_rec fuel' (reset_timer a)
  end.

Definition start_timer (a : PomodoroApp) : PomodoroApp :=
  match start_timer_rec 2 a with
  | Some a' => a'
  | None => a
  end.

Definition pause_timer (a : PomodoroApp) : PomodoroApp :=
  match timer_thread a with
  | Some th =>
      if TimerThread.running th
      then with_buttons true false true
             (with_thread (Some (TimerThread.pause th)) a)
      else a
  | None => a
  end.

Definition resume_timer (a : PomodoroApp) : PomodoroApp :=
  match timer_thread a with
  | Some th =>
      if negb (TimerThread.running th)
      then with_buttons false true false
             (with_thread (Some (TimerThread.resume th)) a)
      else a
  | None => a
  end.

Definition update_time (seconds : Z) (a : PomodoroApp) : PomodoroApp :=
  with_remaining seconds a.

(** The title and message [timer_ended] picks for the session that
    just ended. *)
Definition completion_message (session : string) : string * string :=
  if String.eqb session "Work"
  then ("Pomodoro Session Complete!",
        "Time for a break! Click here to start your break session.")
  else ("Break Time Over!",
        "Break session ended. Time to get back to work!").

Definition send_notification (title message : string) (a : PomodoroApp)
  : PomodoroApp :=
  with_notifications (notifications a ++ [(title, message)]) a.

(** The second half of [timer_ended] ("Handle session completion" and
    "Reset timer for next session"). *)
Definition rotate_session (a : PomodoroApp) : PomodoroApp :=
  let a1 :=
    if String.eqb (current_session a) "Work"
    then
      let a' := with_count (pomodoro_count a + 1) a in
      if (pomodoro_count a' mod POMODOROS_BEFORE_LONG_BREAK) =? 0
      then with_session "Long Break" a'
      else with_session "Short Break" a'
    else with_session "Work" a in
  with_remaining (session_duration (current_session a1)) a1.

(** The slot [timer_ended].  The sound that is played between the
    notification and the rotation is a call to the operating system
    that neither reads nor writes the state. *)
Definition on_timer_ended (a : PomodoroApp) : PomodoroApp :=
  let '(title, message) := completion_message (current_session a) in
  rotate_session (send_notification title message a).

(** What can happen next: a click, a step of the worker thread, or the
    event loop dispatching the oldest queued signal to its slot. *)
Inductive Action : Type :=
| ClickStart | ClickPause | ClickResume | ClickReset
| ClickSession (session_type : string)
| Worker
| Dispatch.

Definition worker_step (a : PomodoroApp) : PomodoroApp :=
  match timer_thread a with
  | Some th =>
      let '(th', out) := TimerThread.step th in
      with_pending (pending a ++ out) (with_thread (Some th') a)
  | None => a
  end.

Definition dispatch (a : PomodoroApp) : PomodoroApp :=
  match pending a with
  | [] => a
  | time_updated seconds :: rest => update_time seconds (with_pending rest a)
  | timer_ended :: rest => on_timer_ended (with_pending rest a)
  end.

Definition exec (act : Action) (a : PomodoroApp) : PomodoroApp :=
  match act with
  | ClickStart => start_timer a
  | ClickPause => pause_timer a
  | ClickResume => resume_timer a
  | ClickReset => reset_timer a
  | ClickSession t => set_session t a
  | Worker => worker_step a
  | Dispatch => dispatch a
  end.

Definition run (acts : list Action) (a : PomodoroApp) : PomodoroApp :=
  fold_left (fun s act => exec act s) acts a.

(** One second of an undisturbed countdown: the worker emits a tick,
    the event loop delivers it, the worker sleeps and decrements. *)
Definition one_second : list Action := [Worker; Dispatch; Worker].

Fixpoint seconds (n : nat) : list Action :=
  match n with
  | O => []
  | S n' => one_second ++ seconds n'
  end.

(** [cleanup], run when the application quits: the thread is stopped,
    joined and dropped.  The teardown of the tray icon that follows
    touches no field of the engine. *)
Definition cleanup (a : PomodoroApp) : PomodoroApp :=
  match timer_thread a with
  | Some th =>
      let '(_, out) := TimerThread.wait (TimerThread.stop th) in
      with_thread None (with_pending (pending a ++ out) a)
  | None => a
  end.

(** A whole session of [d] seconds with nobody interfering: Start, the
    worker enters [run], [d] seconds pass, the worker leaves the loop and
    emits the expiry, the event loop delivers it. *)
Definition full_session (d : Z) : list Action :=
  [ClickStart; Worker] ++ seconds (Z.to_nat d) ++ [Worker; Worker; Dispatch].

End Baseline.

(** ** The merged window with fullscreen mode ([src/src/pomodoro_pyqt.py]) *)

Module Merged.

(** As in [Baseline], with the three flags this variant keeps instead
    of separate pause and resume buttons. *)
Record PomodoroApp : Type := mk {
  current_session : string;
  pomodoro_count : Z;
  remaining_time : Z;
  timer_thread : option TimerThread.t;
  is_paused : bool;
  timer_running : bool;
  is_fullscreen : bool;
  notifications : list (string * string);
  pending : list Signal
}.

Definition init : PomodoroApp :=
  {| current_session := "Work"; pomodoro_count := 0;
     remaining_time := POMODORO_DURATION; timer_thread := None;
     is_paused := false; timer_running := false; is_fullscreen := false;
     notifications := []; pending := [] |}.

Definition with_session (v : string) (a : PomodoroApp) : PomodoroApp :=
  mk v (pomodoro_count a) (remaining_time a) (timer_thread a)
     (is_paused a) (timer_running a) (is_fullscreen a)
     (notifications a) (pending a).

Definition with_count (v : Z) (a : PomodoroApp) : PomodoroApp :=
  mk (current_session a) v (remaining_time a) (timer_thread a)
     (is_paused a) (timer_running a) (is_fullscreen a)
     (notifications a) (pending a).

Definition with_remaining (v : Z) (a : PomodoroApp) : PomodoroApp :=
  mk (current_session a) (pomodoro_count a) v (timer_thread a)
     (is_paused a) (timer_running a) (is_fullscreen a)
     (notifications a) (pending a).

Definition with_thread (v : option TimerThread.t) (a : PomodoroApp)
  : PomodoroApp :=
  mk (current_session a) (pomodoro_count a) (remaining_time a) v
     (is_paused a) (timer_running a) (is_fullscreen a)
     (notifications a) (pending a).

Definition with_paused (v : bool) (a : PomodoroApp) : PomodoroApp :=
  mk (current_session a) (pomodoro_count a) (remaining_time a)
     (timer_thread a) v (timer_running a) (is_fullscreen a)
     (notifications a) (pending a).

(** [self.timer_running = r; self.is_paused = p; self.is_fullscreen = f]. *)
Definition with_flags (r p f : bool) (a : PomodoroApp) : PomodoroApp :=
  mk (current_session a) (pomodoro_count a) (remaining_time a)
     (timer_thread a) p r f (notifications a) (pending a).

Definition with_notifications (v : list (string * string))
  (a : PomodoroApp) : PomodoroApp :=
  mk (current_session a) (pomodoro_count a) (remaining_time a)
     (timer_thread a) (is_paused a) (timer_running a) (is_fullscreen a)
     v (pending a).

Definition with_pending (v : list Signal) (a : PomodoroApp) : PomodoroApp :=
  mk (current_session a) (pomodoro_count a) (remaining_time a)
     (timer_thread a) (is_paused a) (timer_running a) (is_fullscreen a)
     (notifications a) v.

Definition no_live_thread (a : PomodoroApp) : bool :=
  match timer_thread a with
  | None => true
  | Some th => TimerThread.isFinished th
  end.

Definition set_session (session_type : string) (a : PomodoroApp)
  : PomodoroApp :=
  with_remaining (session_duration session_type)
    (with_session session_type a).

(** Here the joined thread is dropped ([self.timer_thread = None]);
    what it emitted before it returned stays queued. *)
Definition reset_timer (a : PomodoroApp) : PomodoroApp :=
  let a1 :=
    match timer_thread a with
    | Some th =>
        let '(_, out) := TimerThread.wait (TimerThread.stop th) in
        with_thread None (with_pending (pending a ++ out) a)
    | None => a
    end in
  let a2 := with_flags false false false a1 in
  with_remaining (session_duration (current_session a2)) a2.

Fixpoint start_timer_rec (fuel : nat) (a : PomodoroApp)
  : option PomodoroApp :=
  match fuel with
  | O => None
  | S fuel' =>
      if no_live_thread a
      then
        let duration := session_duration (current_session a) in
        Some (with_flags true false true
                (with_thread (Some (TimerThread.init duration)) a))
      else start_timer_rec fuel' (reset_timer a)
  end.

Definition start_timer (a : PomodoroApp) : PomodoroApp :=
  match start_timer_rec 2 a with
  | Some a' => a'
  | None => a
  end.

Definition toggle_pause_fullscreen (a : PomodoroApp) : PomodoroApp :=
  match timer_thread a with
  | Some th =>
      if is_paused a
      then with_paused false (with_thread (Some (TimerThread.resume th)) a)
      else with_paused true (with_thread (Some (TimerThread.pause th)) a)
  | None => a
  end.

Definition exit_fullscreen (a : PomodoroApp) : PomodoroApp :=
  reset_timer a.

Definition pause_timer (a : PomodoroApp) : PomodoroApp :=
  match timer_thread a with
  | Some th =>
      if TimerThread.running th
      then with_thread (Some (TimerThread.pause th)) a
      else a
  | None => a
  end.

Definition resume_timer (a : PomodoroApp) : PomodoroApp :=
  match timer_thread a with
  | Some th =>
      if negb (TimerThread.running th)
      then with_thread (Some (TimerThread.resume th)) a
      else a
  | None => a
  end.

(** The single Start/Pause/Resume button of the normal view. *)
Definition on_primary_button_clicked (a : PomodoroApp) : PomodoroApp :=
  if no_live_thread a then start_timer a
  else
    match timer_thread a with
    | Some th =>
        if TimerThread.running th then pause_timer a else resume_timer a
    | None => a
    end.

Definition update_time (seconds : Z) (a : PomodoroApp) : PomodoroApp :=
  with_remaining seconds a.

Definition completion_message (session : string) : string * string :=
  if String.eqb session "Work"
  then ("Pomodoro Session Complete!", "Time for a break!")
  else ("Break Time Over!", "Time to get back to work!").

Definition send_notification (title message : string) (a : PomodoroApp)
  : PomodoroApp :=
  with_notifications (notifications a ++ [(title, message)]) a.

Definition rotate_session (a : PomodoroApp) : PomodoroApp :=
  let a1 :=
    if String.eqb (current_session a) "Work"
    then
      let a' := with_count (pomodoro_count a + 1) a in
      if (pomodoro_count a' mod POMODOROS_BEFORE_LONG_BREAK) =? 0
      then with_session "Long Break" a'
      else with_session "Short Break" a'
    else with_session "Work" a in
  with_flags false false false
    (with_remaining (session_duration (current_session a1)) a1).

Definition on_timer_ended (a : PomodoroApp) : PomodoroApp :=
  let '(title, message) := completion_message (current_session a) in
  rotate_session (send_notification title message a).

Inductive Action : Type :=
| StartTimer | PauseTimer | ResumeTimer | ResetTimer
| SetSession (session_type : string)
| PrimaryButton | TogglePause | ExitFullscreen
| Worker
| Dispatch.

Definition worker_step (a : PomodoroApp) : PomodoroApp :=
  match timer_thread a with
  | Some th =>
      let '(th', out) := TimerThread.step th in
      with_pending (pending a ++ out) (with_thread (Some th') a)
  | None => a
  end.

Definition dispatch (a : PomodoroApp) : PomodoroApp :=
  match pending a with
  | [] => a
  | time_updated seconds :: rest => update_time seconds (with_pending rest a)
  | timer_ended :: rest => on_timer_ended (with_pending rest a)
  end.

Definition exec (act : Action) (a : PomodoroApp) : PomodoroApp :=
  match act with
  | StartTimer => start_timer a
  | PauseTimer => pause_timer a
  | ResumeTimer => resume_timer a
  | ResetTimer => reset_timer a
  | SetSession t => set_session t a
  | PrimaryButton => on_primary_button_clicked a
  | TogglePause => toggle_pause_fullscreen a
  | ExitFullscreen => exit_fullscreen a
  | Worker => worker_step a
  | Dispatch => dispatch a
  end.

Definition run (acts : list Action) (a : PomodoroApp) : PomodoroApp :=
  fold_left (fun s act => exec act s) acts a.

Definition one_second : list Action := [Worker; Dispatch; Worker].

Fixpoint seconds (n : nat) : list Action :=
  match n with
  | O => []
  | S n' => one_second ++ seconds n'
  end.

Definition cleanup (a : PomodoroApp) : PomodoroApp :=
  match timer_thread a with
  | Some th =>
      let '(_, out) := TimerThread.wait (TimerThread.stop th) in
      with_thread None (with_pending (pending a ++ out) a)
  | None => a
  end.

Definition full_session (d : Z) : list Action :=
  [StartTimer; Worker] ++ seconds (Z.to_nat d) ++ [Worker; Worker; Dispatch].

End Merged.

(** ** The time label ([format_time], the same in both files) *)

(** Python's [str] of a non-negative integer. *)
Definition decimal (n : Z) : string :=
  NilZero.string_of_uint (N.to_uint (Z.to_N n)).

(** Zeros in front of [s] until it is [width] characters long. *)
Definition zfill (width : nat) (s : string) : string :=
  String.concat "" (repeat "0" (width - String.length s)) ++ s.

(** The format specification [02d]: the sign, then the digits filled with
    zeros so that the whole is at least two characters wide. *)
Definition format_02d (n : Z) : string :=
  if n <? 0 then "-" ++ zfill 1 (decimal (- n)) else zfill 2 (decimal n).

Definition format_time (seconds : Z) : string :=
  let minutes := seconds / 60 in
  let secs := seconds mod 60 in
  format_02d minutes ++ ":" ++ format_02d secs.

(** The character of a decimal digit. *)
Definition digit_char (k : Z) : ascii :=
  ascii_of_nat (48 + Z.to_nat k).

(** Reading a label of the shape [MM:SS] back. *)
Definition digit_value (c : ascii) : Z := Z.of_nat (nat_of_ascii c) - 48.

Definition read_label (s : string) : Z :=
  match s with
  | String m1 (String m0 (String _ (String s1 (String s0 EmptyString)))) =>
      (digit_value m1 * 10 + digit_value m0) * 60
      + digit_value s1 * 10 + digit_value s0
  | _ => -1
  end.

(** ** The task list ([add_task], [edit_task], [delete_task],
       [update_task_list], the same in both files) *)

Module Tasks.

(** [tasks] is the Python list, [task_list] the items of the
    [QListWidget]. *)
Record t : Type := mk {
  tasks : list string;
  task_list : list string
}.

Definition init : t := {| tasks := []; task_list := [] |}.

(** [self.task_list.clear()] and then one [addItem] per task. *)
Definition update_task_list (s : t) : t :=
  {| tasks := tasks s;
     task_list := fold_left (fun items task => items ++ [task]) (tasks s) [] |}.

(** [if ok and text]: the dialog was accepted and the text is not empty. *)
Definition accepted (text : string) (ok : bool) : bool :=
  ok && negb (String.eqb text "").

(** [add_task]; [text] and [ok] are what the input dialog returns. *)
Definition add_task (text : string) (ok : bool) (s : t) : t :=
  if accepted text ok
  then update_task_list {| tasks := tasks s ++ [text];
                           task_list := task_list s |}
  else s.

(** [l[i] = v] for [0 <= i < len(l)]. *)
Fixpoint set_item (l : list string) (i : nat) (v : string) : list string :=
  match l, i with
  | [], _ => []
  | _ :: l', O => v :: l'
  | x :: l', S i' => x :: set_item l' i' v
  end.

(** [l.pop(i)] for [0 <= i < len(l)], the list that is left. *)
Fixpoint pop_item (l : list string) (i : nat) : list string :=
  match l, i with
  | [], _ => []
  | _ :: l', O => l'
  | x :: l', S i' => x :: pop_item l' i'
  end.

(** [edit_task]; [current_row] is what [currentRow()] returns ([-1] when
    nothing is selected), [dialog] what the input dialog returns when it
    is opened with the current text.  [None] is the [IndexError] of
    [self.tasks[current_row]]. *)
Definition edit_task (current_row : Z) (dialog : string -> string * bool)
  (s : t) : option t :=
  if 0 <=? current_row
  then
    match nth_error (tasks s) (Z.to_nat current_row) with
    | None => None
    | Some current_task =>
        let '(text, ok) := dialog current_task in
        if accepted text ok
        then Some (update_task_list
                     {| tasks := set_item (tasks s) (Z.to_nat current_row) text;
                        task_list := task_list s |})
        else Some s
    end
  else Some s.

(** [delete_task]; [None] is the [IndexError] of [self.tasks.pop]. *)
Definition delete_task (current_row : Z) (s : t) : option t :=
  if 0 <=? current_row
  then
    if (Z.to_nat current_row <? length (tasks s))%nat
    then Some (update_task_list
                 {| tasks := pop_item (tasks s) (Z.to_nat current_row);
                    task_list := task_list s |})
    else None
  else Some s.

Inductive Action : Type :=
| Add (text : string) (ok : bool)
| Edit (current_row : Z) (dialog : string -> string * bool)
| Delete (current_row : Z).

Definition exec (act : Action) (s : t) : option t :=
  match act with
  | Add text ok => Some (add_task text ok s)
  | Edit row dialog => edit_task row dialog s
  | Delete row => delete_task row s
  end.

(** A sequence of clicks; it stops at the first exception. *)
Fixpoint run (acts : list Action) (s : t) : option t :=
  match acts with
  | [] => Some s
  | act :: acts' =>
      match exec act s with
      | Some s' => run acts' s'
      | None => None
      end
  end.

End Tasks.

(** ** Counting the notifications *)

(** A logged notification that announces a completed work session. *)
Definition is_work_notice (n : string * string) : bool :=
  String.eqb (fst n) "Pomodoro Session Complete!".

(** ** The invariant of a worker under an arbitrary schedule *)

(** The ticks [d, d-1, ..., r+1]. *)
Definition ticks_down_to (d r : Z) : list Signal :=
  map time_updated
    (map (fun k => d - Z.of_nat k) (seq 0 (Z.to_nat (d - r)))).

(** What a worker created with duration [d] has emitted, by where it is
    in [run]. *)
Definition schedule_inv (d : Z) (st : TimerThread.t * list Signal) : Prop :=
  TimerThread.duration (fst st) = d /\
  match TimerThread.pc (fst st) with
  | TimerThread.Entry => snd st = []
  | TimerThread.LoopHead | TimerThread.LoopExit =>
      Z.min d 0 <= TimerThread.remaining (fst st) <= d /\
      snd st = ticks_down_to d (TimerThread.remaining (fst st))
  | TimerThread.Sleeping =>
      0 < TimerThread.remaining (fst st) <= d /\
      snd st = ticks_down_to d (TimerThread.remaining (fst st) - 1)
  | TimerThread.Finished =>
      Z.min d 0 <= TimerThread.remaining (fst st) <= d /\
      snd st = ticks_down_to d (TimerThread.remaining (fst st))
               ++ (if TimerThread.remaining (fst st) <=? 0
                   then [timer_ended] else [])
  end.

(** ** Predicates used by the invariants *)

(** A thread whose duration is one of the session lengths never holds
    more than that duration. *)
Definition thread_ok (th : TimerThread.t) : Prop :=
  0 < TimerThread.duration th <= POMODORO_DURATION /\
  TimerThread.remaining th <= TimerThread.duration th.

Definition signal_ok (sg : Signal) : Prop :=
  match sg with
  | time_updated n => 0 < n <= POMODORO_DURATION
  | timer_ended => True
  end.

Definition opt_thread_ok (o : option TimerThread.t) : Prop :=
  match o with
  | Some th => thread_ok th
  | None => True
  end.

Definition baseline_inv (a : Baseline.PomodoroApp) : Prop :=
  0 < Baseline.remaining_time a <= POMODORO_DURATION /\
  opt_thread_ok (Baseline.timer_thread a) /\
  Forall signal_ok (Baseline.pending a).

Definition merged_inv (a : Merged.PomodoroApp) : Prop :=
  0 < Merged.remaining_time a <= POMODORO_DURATION /\
  opt_thread_ok (Merged.timer_thread a) /\
  Forall signal_ok (Merged.pending a).

(** * Facts about the worker thread *)

Lemma session_duration_cases (s : string) :
  session_duration s = 1500 \/ session_duration s = 300 \/
  session_duration s = 900.
Proof.
  unfold session_duration, POMODORO_DURATION, SHORT_BREAK, LONG_BREAK.
  destruct (String.eqb s "Work"); [now left|].
  destruct (String.eqb s "Short Break"); [right; now left | right; now right].
Qed.

Lemma session_duration_bounds (s : string) :
  0 < session_duration s <= POMODORO_DURATION.
Proof.
  unfold POMODORO_DURATION.
  destruct (session_duration_cases s) as [H | [H | H]]; rewrite H; lia.
Qed.

Lemma run_thread_of_finished (fuel : nat) (th : TimerThread.t) :
  TimerThread.isFinished th = true ->
  TimerThread.run_thread fuel th = (th, []).
Proof.
  intros Hfin. destruct fuel as [| fuel]; simpl; [reflexivity|].
  now rewrite Hfin.
Qed.

Lemma step_decreases (th : TimerThread.t) :
  TimerThread.isFinished th = false ->
  (TimerThread.steps_left (fst (TimerThread.step th))
   < TimerThread.steps_left th)%nat.
Proof.
  destruct th as [d r run stp p].
  unfold TimerThread.isFinished, TimerThread.step, TimerThread.steps_left,
    TimerThread.guard.
  destruct p; cbn [TimerThread.pc TimerThread.duration TimerThread.remaining
                   TimerThread.running TimerThread.should_stop fst];
    intros Hfin; try discriminate; try lia.
  destruct (0 <? r) eqn:Hr; cbn [andb].
  - apply Z.ltb_lt in Hr.
    destruct (run && negb stp);
      cbn [fst TimerThread.pc TimerThread.remaining]; lia.
  - cbn [fst TimerThread.pc TimerThread.remaining]. lia.
Qed.

Lemma run_thread_finishes (fuel : nat) :
  forall th, (TimerThread.steps_left th <= fuel)%nat ->
  TimerThread.isFinished (fst (TimerThread.run_thread fuel th)) = true.
Proof.
  induction fuel as [| fuel IH]; intros th Hle.
  - destruct th as [d r run stp p]; destruct p;
      unfold TimerThread.steps_left in Hle; cbn in Hle; try lia.
    reflexivity.
  - simpl. destruct (TimerThread.isFinished th) eqn:Hfin; [exact Hfin|].
    pose proof (step_decreases th Hfin) as Hdec.
    destruct (TimerThread.step th) as [th1 out1] eqn:Hstep.
    cbn [fst] in Hdec.
    specialize (IH th1 ltac:(lia)).
    destruct (TimerThread.run_thread fuel th1) as [th2 out2].
    exact IH.
Qed.

(** [wait] returns, and what it returns has finished. *)
Lemma wait_finished (th : TimerThread.t) :
  TimerThread.isFinished (fst (TimerThread.wait th)) = true.
Proof.
  unfold TimerThread.wait. apply run_thread_finishes. lia.
Qed.

Lemma stop_ok (th : TimerThread.t) : thread_ok th -> thread_ok (TimerThread.stop th).
Proof. unfold thread_ok. destruct th; cbn. tauto. Qed.

Lemma pause_ok (th : TimerThread.t) : thread_ok th -> thread_ok (TimerThread.pause th).
Proof. unfold thread_ok. destruct th; cbn. tauto. Qed.

Lemma resume_ok (th : TimerThread.t) : thread_ok th -> thread_ok (TimerThread.resume th).
Proof. unfold thread_ok. destruct th; cbn. tauto. Qed.

Lemma init_ok (s : string) : thread_ok (TimerThread.init (session_duration s)).
Proof.
  unfold thread_ok, TimerThread.init.
  cbn [TimerThread.duration TimerThread.remaining].
  pose proof (session_duration_bounds s). lia.
Qed.

Lemma step_ok (th : TimerThread.t) :
  thread_ok th ->
  thread_ok (fst (TimerThread.step th)) /\
  Forall signal_ok (snd (TimerThread.step th)).
Proof.
  destruct th as [d r run stp p].
  unfold thread_ok, TimerThread.step, TimerThread.guard.
  cbn [TimerThread.pc TimerThread.duration TimerThread.remaining
       TimerThread.running TimerThread.should_stop].
  intros [Hd Hr].
  destruct p; cbn [fst snd TimerThread.duration TimerThread.remaining].
  - split; [lia | constructor].
  - destruct (0 <? r) eqn:H0; cbn [andb].
    + apply Z.ltb_lt in H0.
      destruct (run && negb stp);
        cbn [fst snd TimerThread.duration TimerThread.remaining];
        (split; [lia|]).
      * constructor; [unfold signal_ok; lia | constructor].
      * constructor.
    + cbn [fst snd TimerThread.duration TimerThread.remaining].
      split; [lia | constructor].
  - split; [lia | constructor].
  - split; [lia|]. destruct (r <=? 0); repeat constructor.
  - split; [lia | constructor].
Qed.

Lemma run_thread_ok (fuel : nat) :
  forall th, thread_ok th ->
  thread_ok (fst (TimerThread.run_thread fuel th)) /\
  Forall signal_ok (snd (TimerThread.run_thread fuel th)).
Proof.
  induction fuel as [| fuel IH]; intros th Hok; simpl.
  - split; [exact Hok | constructor].
  - destruct (TimerThread.isFinished th); [split; [exact Hok | constructor]|].
    destruct (step_ok th Hok) as [Hok1 Hsig1].
    destruct (TimerThread.step th) as [th1 out1]. cbn [fst snd] in *.
    destruct (IH th1 Hok1) as [Hok2 Hsig2].
    destruct (TimerThread.run_thread fuel th1) as [th2 out2].
    cbn [fst snd] in *. split; [exact Hok2|].
    apply Forall_app; split; assumption.
Qed.

Lemma wait_ok (th : TimerThread.t) :
  thread_ok th ->
  thread_ok (fst (TimerThread.wait th)) /\
  Forall signal_ok (snd (TimerThread.wait th)).
Proof. apply run_thread_ok. Qed.

Lemma countdown_values_pos (d : Z) :
  0 < d -> countdown_values d = d :: countdown_values (d - 1).
Proof.
  intros Hd. unfold countdown_values.
  replace (Z.to_nat d) with (S (Z.to_nat (d - 1))) by lia.
  cbn [seq map]. f_equal; [cbn; lia|].
  rewrite <- seq_shift, map_map.
  apply map_ext. intros k. lia.
Qed.

Lemma countdown_values_length (d : Z) :
  length (countdown_values d) = Z.to_nat d.
Proof. unfold countdown_values. now rewrite length_map, length_seq. Qed.

Lemma run_thread_unfold (fuel : nat) (th : TimerThread.t) :
  TimerThread.isFinished th = false ->
  TimerThread.run_thread (S fuel) th
  = (fst (TimerThread.run_thread fuel (fst (TimerThread.step th))),
     snd (TimerThread.step th)
     ++ snd (TimerThread.run_thread fuel (fst (TimerThread.step th)))).
Proof.
  intros Hfin. simpl. rewrite Hfin.
  destruct (TimerThread.step th) as [th1 out1]. cbn [fst snd].
  destruct (TimerThread.run_thread fuel th1) as [th2 out2]. reflexivity.
Qed.

Ltac thread_fields :=
  cbn [TimerThread.pc TimerThread.duration TimerThread.remaining
       TimerThread.running TimerThread.should_stop fst snd].

Ltac thread_fields_in H :=
  cbn [TimerThread.pc TimerThread.duration TimerThread.remaining
       TimerThread.running TimerThread.should_stop fst snd] in H.

Ltac thread_step :=
  rewrite run_thread_unfold by reflexivity;
  unfold TimerThread.step, TimerThread.guard; thread_fields.

(** From the head of the loop, a worker that nobody pauses or stops
    emits the values left, largest first, then the expiry, and returns. *)
Lemma run_from_loop_head (n : nat) :
  forall (fuel : nat) (d : Z),
  (2 * n + 2 <= fuel)%nat ->
  TimerThread.run_thread fuel
    (TimerThread.mk d (Z.of_nat n) true false TimerThread.LoopHead)
  = (TimerThread.mk d 0 true false TimerThread.Finished,
     map time_updated (countdown_values (Z.of_nat n)) ++ [timer_ended]).
Proof.
  induction n as [| n IH]; intros fuel d Hfuel.
  - destruct fuel as [| [| fuel]]; try lia.
    do 2 thread_step.
    rewrite run_thread_of_finished by reflexivity. reflexivity.
  - destruct fuel as [| [| fuel]]; try lia.
    rewrite countdown_values_pos by lia.
    replace (Z.of_nat (S n) - 1) with (Z.of_nat n) by lia.
    specialize (IH fuel d ltac:(lia)).
    thread_step.
    replace (0 <? Z.of_nat (S n)) with true by (symmetry; apply Z.ltb_lt; lia).
    cbn [andb negb]. thread_fields.
    thread_step.
    replace (Z.of_nat (S n) - 1) with (Z.of_nat n) by lia.
    rewrite IH. reflexivity.
Qed.

(** An undisturbed countdown of [d > 0] seconds: [d] ticks carrying
    [d, d-1, ..., 1], then exactly one expiry, and the thread is over. *)
Lemma undisturbed_countdown (d : Z) :
  0 < d ->
  TimerThread.wait (TimerThread.init d)
  = (TimerThread.mk d 0 true false TimerThread.Finished,
     map time_updated (countdown_values d) ++ [timer_ended]).
Proof.
  intros Hd. unfold TimerThread.wait, TimerThread.steps_left, TimerThread.init.
  thread_fields.
  replace (2 * Z.to_nat d + 3)%nat with (S (2 * Z.to_nat d + 2)) by lia.
  thread_step.
  pose proof (run_from_loop_head (Z.to_nat d) (2 * Z.to_nat d + 2) d
                ltac:(lia)) as Hrun.
  rewrite Z2Nat.id in Hrun by lia.
  rewrite Hrun. reflexivity.
Qed.

Lemma countdown_values_range (d x : Z) :
  In x (countdown_values d) -> 1 <= x <= d.
Proof.
  unfold countdown_values. intros Hin.
  apply in_map_iff in Hin. destruct Hin as [k [Hk Hin]].
  apply in_seq in Hin. lia.
Qed.

Lemma ticks_of_countdown (l : list Z) :
  filter is_tick (map time_updated l ++ [timer_ended]) = map time_updated l.
Proof.
  induction l as [| x l IH]; cbn; [reflexivity | now rewrite IH].
Qed.

Lemma expiries_of_countdown (l : list Z) :
  filter is_expiry (map time_updated l ++ [timer_ended]) = [timer_ended].
Proof.
  induction l as [| x l IH]; cbn; [reflexivity | exact IH].
Qed.

(** * The claims *)

(** ** C4: what a tick carries *)

(** C4, refuted as stated: the first tick of a countdown of 1500 seconds
    does not report 1499. *)
Lemma first_tick_is_not_duration_minus_one :
  hd_error (snd (TimerThread.wait (TimerThread.init 1500)))
  <> Some (time_updated (1500 - 1)).
Proof. vm_compute. discriminate. Qed.

(** C4, amended: the tick is emitted at the start of each second, before
    the sleep and the decrement, and carries the value not yet
    decremented.  A countdown of [d > 0] seconds left alone emits exactly
    [d] ticks carrying [d, d-1, ..., 1] and then the expiry; its first
    tick reports [d], and no tick ever reports 0. *)
Theorem tick_carries_value_before_decrement (d : Z) :
  0 < d ->
  let out := snd (TimerThread.wait (TimerThread.init d)) in
  out = map time_updated (countdown_values d) ++ [timer_ended] /\
  hd_error out = Some (time_updated d) /\
  length (filter is_tick out) = Z.to_nat d /\
  ~ In (time_updated 0) out.
Proof.
  intros Hd out. subst out.
  rewrite (undisturbed_countdown d Hd). cbn [snd].
  split; [reflexivity|]. split; [|split].
  - rewrite (countdown_values_pos d Hd). reflexivity.
  - now rewrite ticks_of_countdown, length_map, countdown_values_length.
  - intros Hin. apply in_app_or in Hin. destruct Hin as [Hin | Hin].
    + apply in_map_iff in Hin. destruct Hin as [x [Hx Hin]].
      apply countdown_values_range in Hin. injection Hx as Hx. lia.
    + destruct Hin as [Hin | []]. discriminate.
Qed.

Lemma tick_carries_value_before_decrement_witness :
  0 < 3 /\
  snd (TimerThread.wait (TimerThread.init 3))
  = [time_updated 3; time_updated 2; time_updated 1; timer_ended].
Proof.
  split; [lia|].
  exact (proj1 (tick_carries_value_before_decrement 3 ltac:(lia))).
Defined.

(** ** C2: expiry and cancellation *)

(** What does hold: a countdown left alone expires exactly once, and a
    joined thread emits nothing any more. *)
Lemma undisturbed_countdown_expires_once (d : Z) :
  0 < d ->
  filter is_expiry (snd (TimerThread.wait (TimerThread.init d)))
  = [timer_ended].
Proof.
  intros Hd. rewrite (undisturbed_countdown d Hd). cbn [snd].
  apply expiries_of_countdown.
Qed.

Lemma joined_thread_is_silent (th : TimerThread.t) (fuel : nat) :
  snd (TimerThread.run_thread fuel
         (fst (TimerThread.wait (TimerThread.stop th)))) = [].
Proof.
  rewrite run_thread_of_finished by apply wait_finished. reflexivity.
Qed.

(** C2, the failing run of the baseline window.  A work session is
    started and 1500 ticks are emitted and delivered, so the worker is in
    its last sleep with one second left; Reset is clicked now.  [stop()]
    sets the flags, [wait()] lets the worker wake up, decrement to 0,
    leave the loop and, since [remaining <= 0], emit [timer_ended]: the
    expiry is fired after [stop()], it is still queued when [reset_timer]
    returns, and its delivery then completes the session that was reset. *)
Theorem reset_in_last_second_still_expires :
  let a := Baseline.run
             ([Baseline.ClickStart; Baseline.Worker]
              ++ Baseline.seconds 1499
              ++ [Baseline.Worker; Baseline.Dispatch]) Baseline.init in
  let a1 := Baseline.exec Baseline.ClickReset a in
  let a2 := Baseline.exec Baseline.Dispatch a1 in
  (Baseline.timer_thread a
   = Some (TimerThread.mk 1500 1 true false TimerThread.Sleeping) /\
   Baseline.remaining_time a = 1 /\ Baseline.pending a = []) /\
  (Baseline.no_live_thread a1 = true /\
   Baseline.pending a1 = [timer_ended] /\
   Baseline.current_session a1 = "Work" /\
   Baseline.pomodoro_count a1 = 0 /\
   Baseline.remaining_time a1 = 1500) /\
  (Baseline.current_session a2 = "Short Break" /\
   Baseline.pomodoro_count a2 = 1 /\
   Baseline.remaining_time a2 = 300 /\
   length (Baseline.notifications a2) = 1%nat).
Proof. vm_compute. repeat split; reflexivity. Qed.

(** ** C3: pause and resume *)

(** C3, the failing schedule.  A worker paused during a sleep with
    [remaining = r > 1] wakes up, decrements to [r - 1], finds [running]
    false, leaves the loop and returns without a signal.  [resume()] then
    only sets a flag of a thread that is over: whatever time it is given,
    it emits nothing.  Only the two idempotence statements of the claim
    hold. *)
Theorem pause_ends_the_countdown (th : TimerThread.t) (fuel : nat) :
  TimerThread.pc th = TimerThread.Sleeping ->
  1 < TimerThread.remaining th ->
  TimerThread.wait (TimerThread.pause th)
  = (TimerThread.mk (TimerThread.duration th) (TimerThread.remaining th - 1)
       false (TimerThread.should_stop th) TimerThread.Finished, []) /\
  TimerThread.run_thread fuel
    (TimerThread.resume (fst (TimerThread.wait (TimerThread.pause th))))
  = (TimerThread.mk (TimerThread.duration th) (TimerThread.remaining th - 1)
       true (TimerThread.should_stop th) TimerThread.Finished, []) /\
  TimerThread.pause (TimerThread.pause th) = TimerThread.pause th /\
  TimerThread.resume (TimerThread.resume th) = TimerThread.resume th.
Proof.
  destruct th as [d r run stp p]. thread_fields. intros -> Hr.
  assert (Hwait :
    TimerThread.wait
      (TimerThread.pause (TimerThread.mk d r run stp TimerThread.Sleeping))
    = (TimerThread.mk d (r - 1) false stp TimerThread.Finished, [])).
  { unfold TimerThread.wait, TimerThread.steps_left, TimerThread.pause.
    thread_fields.
    replace (2 * Z.to_nat (r - 1) + 3)%nat
      with (S (S (S (2 * Z.to_nat (r - 1))))) by lia.
    do 2 thread_step. rewrite andb_false_r. cbn [andb]. thread_fields.
    thread_step.
    replace (r - 1 <=? 0) with false by (symmetry; apply Z.leb_gt; lia).
    rewrite run_thread_of_finished by reflexivity. reflexivity. }
  rewrite Hwait. cbn [fst].
  split; [reflexivity|]. split; [|split; reflexivity].
  apply run_thread_of_finished. reflexivity.
Qed.

Lemma pause_ends_the_countdown_witness :
  1 < 1499 /\
  TimerThread.wait
    (TimerThread.pause
       (TimerThread.mk 1500 1499 true false TimerThread.Sleeping))
  = (TimerThread.mk 1500 1498 false false TimerThread.Finished, []) /\
  TimerThread.run_thread 10
    (TimerThread.resume
       (fst (TimerThread.wait
               (TimerThread.pause
                  (TimerThread.mk 1500 1499 true false
                     TimerThread.Sleeping)))))
  = (TimerThread.mk 1500 1498 true false TimerThread.Finished, []).
Proof.
  split; [lia|].
  pose proof (pause_ends_the_countdown
                (TimerThread.mk 1500 1499 true false TimerThread.Sleeping)
                10 eq_refl ltac:(cbn; lia)) as H.
  split; [exact (proj1 H) | exact (proj1 (proj2 H))].
Defined.

(** The same schedule seen from the baseline window: Start, two ticks
    delivered, Pause, the worker runs on, Resume, the worker and the event
    loop are given time.  The display stays at 1499, the thread is over
    and nothing is queued. *)
Example baseline_pause_resume_run :
  let a := Baseline.run
             ([Baseline.ClickStart; Baseline.Worker]
              ++ Baseline.seconds 1
              ++ [Baseline.Worker; Baseline.Dispatch; Baseline.ClickPause;
                  Baseline.Worker; Baseline.Worker; Baseline.Worker;
                  Baseline.ClickResume;
                  Baseline.Worker; Baseline.Worker; Baseline.Dispatch])
             Baseline.init in
  Baseline.remaining_time a = 1499 /\
  Baseline.timer_thread a
  = Some (TimerThread.mk 1500 1498 true false TimerThread.Finished) /\
  Baseline.pending a = [].
Proof. vm_compute. repeat split; reflexivity. Qed.

(** ** C1: session rotation *)

Ltac session_cases s :=
  destruct (String.eqb_spec s "Work") as [-> | ?].

Lemma baseline_rotation (a : Baseline.PomodoroApp) :
  (Baseline.current_session a = "Work" ->
   Baseline.pomodoro_count (Baseline.on_timer_ended a)
   = Baseline.pomodoro_count a + 1 /\
   ((Baseline.pomodoro_count a + 1) mod 4 = 0 ->
    Baseline.current_session (Baseline.on_timer_ended a) = "Long Break") /\
   ((Baseline.pomodoro_count a + 1) mod 4 <> 0 ->
    Baseline.current_session (Baseline.on_timer_ended a) = "Short Break")) /\
  (Baseline.current_session a <> "Work" ->
   Baseline.pomodoro_count (Baseline.on_timer_ended a)
   = Baseline.pomodoro_count a /\
   Baseline.current_session (Baseline.on_timer_ended a) = "Work") /\
  Baseline.remaining_time (Baseline.on_timer_ended a)
  = session_duration (Baseline.current_session (Baseline.on_timer_ended a)).
Proof.
  destruct a as [cs n r th b1 b2 b3 ns q].
  unfold Baseline.on_timer_ended, Baseline.completion_message,
    Baseline.rotate_session, Baseline.send_notification,
    POMODOROS_BEFORE_LONG_BREAK.
  cbn [Baseline.current_session Baseline.pomodoro_count].
  session_cases cs.
  - cbn [Baseline.current_session Baseline.pomodoro_count
         Baseline.with_notifications Baseline.with_count String.eqb
         Ascii.eqb Bool.eqb].
    destruct (Z.eqb_spec ((n + 1) mod 4) 0) as [Hm | Hm]; cbn;
      repeat split; intros; congruence.
  - cbn. rewrite ?(proj2 (String.eqb_neq cs "Work")) by assumption.
    cbn. repeat split; intros; congruence.
Qed.

Lemma baseline_four_work_sessions (a : Baseline.PomodoroApp) :
  Baseline.current_session a = "Work" ->
  Baseline.pomodoro_count a = 0 ->
  map (fun k => Baseline.current_session
                  (Nat.iter k Baseline.on_timer_ended a))
      [1; 2; 3; 4; 5; 6; 7]%nat
  = ["Short Break"; "Work"; "Short Break"; "Work"; "Short Break"; "Work";
     "Long Break"] /\
  Baseline.pomodoro_count (Nat.iter 7 Baseline.on_timer_ended a) = 4.
Proof.
  destruct a as [cs n r th b1 b2 b3 ns q]. cbn [Baseline.current_session
    Baseline.pomodoro_count]. intros -> ->. split; reflexivity.
Qed.

Lemma merged_rotation (a : Merged.PomodoroApp) :
  (Merged.current_session a = "Work" ->
   Merged.pomodoro_count (Merged.on_timer_ended a)
   = Merged.pomodoro_count a + 1 /\
   ((Merged.pomodoro_count a + 1) mod 4 = 0 ->
    Merged.current_session (Merged.on_timer_ended a) = "Long Break") /\
   ((Merged.pomodoro_count a + 1) mod 4 <> 0 ->
    Merged.current_session (Merged.on_timer_ended a) = "Short Break")) /\
  (Merged.current_session a <> "Work" ->
   Merged.pomodoro_count (Merged.on_timer_ended a)
   = Merged.pomodoro_count a /\
   Merged.current_session (Merged.on_timer_ended a) = "Work") /\
  Merged.remaining_time (Merged.on_timer_ended a)
  = session_duration (Merged.current_session (Merged.on_timer_ended a)).
Proof.
  destruct a as [cs n r th p tr fs ns q].
  unfold Merged.on_timer_ended, Merged.completion_message,
    Merged.rotate_session, Merged.send_notification,
    POMODOROS_BEFORE_LONG_BREAK.
  cbn [Merged.current_session Merged.pomodoro_count].
  session_cases cs.
  - cbn [Merged.current_session Merged.pomodoro_count
         Merged.with_notifications Merged.with_count String.eqb
         Ascii.eqb Bool.eqb].
    destruct (Z.eqb_spec ((n + 1) mod 4) 0) as [Hm | Hm]; cbn;
      repeat split; intros; congruence.
  - cbn. rewrite ?(proj2 (String.eqb_neq cs "Work")) by assumption.
    cbn. repeat split; intros; congruence.
Qed.

Lemma merged_four_work_sessions (a : Merged.PomodoroApp) :
  Merged.current_session a = "Work" ->
  Merged.pomodoro_count a = 0 ->
  map (fun k => Merged.current_session
                  (Nat.iter k Merged.on_timer_ended a))
      [1; 2; 3; 4; 5; 6; 7]%nat
  = ["Short Break"; "Work"; "Short Break"; "Work"; "Short Break"; "Work";
     "Long Break"] /\
  Merged.pomodoro_count (Nat.iter 7 Merged.on_timer_ended a) = 4.
Proof.
  destruct a as [cs n r th p tr fs ns q]. cbn [Merged.current_session
    Merged.pomodoro_count]. intros -> ->. split; reflexivity.
Qed.

(** C1: in both windows the slot [timer_ended], run on a state whose
    session is Work, adds 1 to [pomodoro_count] and moves to the long
    break when the new count is divisible by 4 and to the short break
    otherwise; run on a break it moves to Work and leaves the count; in
    all cases [remaining_time] becomes the duration of the new session.
    From a Work session with count 0, the sessions after successive
    expiries are Short, Work, Short, Work, Short, Work, Long, and the
    count is 4 after the fourth Work expiry. *)
Theorem session_rotation :
  (forall a : Baseline.PomodoroApp,
     (Baseline.current_session a = "Work" ->
      Baseline.pomodoro_count (Baseline.on_timer_ended a)
      = Baseline.pomodoro_count a + 1 /\
      ((Baseline.pomodoro_count a + 1) mod 4 = 0 ->
       Baseline.current_session (Baseline.on_timer_ended a) = "Long Break") /\
      ((Baseline.pomodoro_count a + 1) mod 4 <> 0 ->
       Baseline.current_session (Baseline.on_timer_ended a) = "Short Break")) /\
     (Baseline.current_session a <> "Work" ->
      Baseline.pomodoro_count (Baseline.on_timer_ended a)
      = Baseline.pomodoro_count a /\
      Baseline.current_session (Baseline.on_timer_ended a) = "Work") /\
     Baseline.remaining_time (Baseline.on_timer_ended a)
     = session_duration
         (Baseline.current_session (Baseline.on_timer_ended a)) /\
     (Baseline.current_session a = "Work" ->
      Baseline.pomodoro_count a = 0 ->
      map (fun k => Baseline.current_session
                      (Nat.iter k Baseline.on_timer_ended a))
          [1; 2; 3; 4; 5; 6; 7]%nat
      = ["Short Break"; "Work"; "Short Break"; "Work"; "Short Break";
         "Work"; "Long Break"] /\
      Baseline.pomodoro_count (Nat.iter 7 Baseline.on_timer_ended a) = 4))
  /\
  (forall a : Merged.PomodoroApp,
     (Merged.current_session a = "Work" ->
      Merged.pomodoro_count (Merged.on_timer_ended a)
      = Merged.pomodoro_count a + 1 /\
      ((Merged.pomodoro_count a + 1) mod 4 = 0 ->
       Merged.current_session (Merged.on_timer_ended a) = "Long Break") /\
      ((Merged.pomodoro_count a + 1) mod 4 <> 0 ->
       Merged.current_session (Merged.on_timer_ended a) = "Short Break")) /\
     (Merged.current_session a <> "Work" ->
      Merged.pomodoro_count (Merged.on_timer_ended a)
      = Merged.pomodoro_count a /\
      Merged.current_session (Merged.on_timer_ended a) = "Work") /\
     Merged.remaining_time (Merged.on_timer_ended a)
     = session_duration (Merged.current_session (Merged.on_timer_ended a)) /\
     (Merged.current_session a = "Work" ->
      Merged.pomodoro_count a = 0 ->
      map (fun k => Merged.current_session
                      (Nat.iter k Merged.on_timer_ended a))
          [1; 2; 3; 4; 5; 6; 7]%nat
      = ["Short Break"; "Work"; "Short Break"; "Work"; "Short Break";
         "Work"; "Long Break"] /\
      Merged.pomodoro_count (Nat.iter 7 Merged.on_timer_ended a) = 4)).
Proof.
  split; intros a.
  - destruct (baseline_rotation a) as [Hw [Hb Hr]].
    repeat split; try assumption; try (apply Hw; assumption);
      try (apply Hb; assumption);
      apply baseline_four_work_sessions; assumption.
  - destruct (merged_rotation a) as [Hw [Hb Hr]].
    repeat split; try assumption; try (apply Hw; assumption);
      try (apply Hb; assumption);
      apply merged_four_work_sessions; assumption.
Qed.

Lemma session_rotation_witness :
  (Baseline.current_session Baseline.init = "Work" /\
   Baseline.pomodoro_count Baseline.init = 0 /\
   map (fun k => Baseline.current_session
                   (Nat.iter k Baseline.on_timer_ended Baseline.init))
       [1; 2; 3; 4; 5; 6; 7]%nat
   = ["Short Break"; "Work"; "Short Break"; "Work"; "Short Break";
      "Work"; "Long Break"] /\
   Baseline.pomodoro_count
     (Nat.iter 7 Baseline.on_timer_ended Baseline.init) = 4) /\
  (Merged.current_session
     (Merged.set_session "Short Break" Merged.init) <> "Work" /\
   Merged.current_session
     (Merged.on_timer_ended
        (Merged.set_session "Short Break" Merged.init)) = "Work").
Proof.
  split.
  - split; [reflexivity|]. split; [reflexivity|].
    exact (proj2 (proj2 (proj2 (proj1 session_rotation Baseline.init)))
             eq_refl eq_refl).
  - assert (Hne : Merged.current_session
                    (Merged.set_session "Short Break" Merged.init)
                  <> "Work") by (cbn; discriminate).
    split; [exact Hne|].
    exact (proj2 (proj1 (proj2 (proj2 session_rotation
             (Merged.set_session "Short Break" Merged.init))) Hne)).
Defined.

(** ** What each operation of the baseline window leaves alone *)

Lemma baseline_reset_no_live_thread (a : Baseline.PomodoroApp) :
  Baseline.no_live_thread (Baseline.reset_timer a) = true.
Proof.
  destruct a as [cs n r [th |] b1 b2 b3 ns q];
    unfold Baseline.reset_timer, Baseline.no_live_thread;
    cbn [Baseline.timer_thread]; [|reflexivity].
  pose proof (wait_finished (TimerThread.stop th)) as Hfin.
  destruct (TimerThread.wait (TimerThread.stop th)) as [th' out].
  exact Hfin.
Qed.

Lemma baseline_reset_fields (a : Baseline.PomodoroApp) :
  Baseline.current_session (Baseline.reset_timer a)
  = Baseline.current_session a /\
  Baseline.pomodoro_count (Baseline.reset_timer a)
  = Baseline.pomodoro_count a /\
  Baseline.notifications (Baseline.reset_timer a)
  = Baseline.notifications a /\
  Baseline.remaining_time (Baseline.reset_timer a)
  = session_duration (Baseline.current_session a) /\
  (Baseline.start_button (Baseline.reset_timer a),
   Baseline.pause_button (Baseline.reset_timer a),
   Baseline.resume_button (Baseline.reset_timer a)) = (true, false, false).
Proof.
  destruct a as [cs n r [th |] b1 b2 b3 ns q];
    unfold Baseline.reset_timer; cbn [Baseline.timer_thread].
  - destruct (TimerThread.wait (TimerThread.stop th)) as [th' out].
    cbn. repeat split; reflexivity.
  - cbn. repeat split; reflexivity.
Qed.

(** [start_timer] returns: the recursion stops after one reset. *)
Lemma baseline_start_timer_eq (a : Baseline.PomodoroApp) :
  Baseline.start_timer_rec 2 a
  = Some
      (let a0 := if Baseline.no_live_thread a then a
                 else Baseline.reset_timer a in
       Baseline.with_buttons false true false
         (Baseline.with_thread
            (Some (TimerThread.init
                     (session_duration (Baseline.current_session a0))))
            a0)).
Proof.
  cbn [Baseline.start_timer_rec].
  destruct (Baseline.no_live_thread a); [reflexivity|].
  now rewrite baseline_reset_no_live_thread.
Qed.

Lemma baseline_start_fields (a : Baseline.PomodoroApp) :
  Baseline.current_session (Baseline.start_timer a)
  = Baseline.current_session a /\
  Baseline.pomodoro_count (Baseline.start_timer a)
  = Baseline.pomodoro_count a /\
  Baseline.notifications (Baseline.start_timer a)
  = Baseline.notifications a /\
  Baseline.timer_thread (Baseline.start_timer a)
  = Some (TimerThread.init (session_duration (Baseline.current_session a))).
Proof.
  unfold Baseline.start_timer. rewrite baseline_start_timer_eq.
  destruct (Baseline.no_live_thread a); cbn zeta.
  - destruct a; cbn. repeat split; reflexivity.
  - destruct (baseline_reset_fields a) as [Hs [Hc [Hn _]]].
    destruct (Baseline.reset_timer a) as [cs n r th b1 b2 b3 ns q].
    cbn in *. subst. repeat split; reflexivity.
Qed.

Lemma baseline_pause_fields (a : Baseline.PomodoroApp) :
  Baseline.current_session (Baseline.pause_timer a)
  = Baseline.current_session a /\
  Baseline.pomodoro_count (Baseline.pause_timer a)
  = Baseline.pomodoro_count a /\
  Baseline.notifications (Baseline.pause_timer a)
  = Baseline.notifications a /\
  Baseline.remaining_time (Baseline.pause_timer a)
  = Baseline.remaining_time a /\
  Baseline.pending (Baseline.pause_timer a) = Baseline.pending a.
Proof.
  destruct a as [cs n r [th |] b1 b2 b3 ns q]; unfold Baseline.pause_timer;
    cbn [Baseline.timer_thread]; [destruct (TimerThread.running th)|];
    cbn; repeat split; reflexivity.
Qed.

Lemma baseline_resume_fields (a : Baseline.PomodoroApp) :
  Baseline.current_session (Baseline.resume_timer a)
  = Baseline.current_session a /\
  Baseline.pomodoro_count (Baseline.resume_timer a)
  = Baseline.pomodoro_count a /\
  Baseline.notifications (Baseline.resume_timer a)
  = Baseline.notifications a /\
  Baseline.remaining_time (Baseline.resume_timer a)
  = Baseline.remaining_time a /\
  Baseline.pending (Baseline.resume_timer a) = Baseline.pending a.
Proof.
  destruct a as [cs n r [th |] b1 b2 b3 ns q]; unfold Baseline.resume_timer;
    cbn [Baseline.timer_thread]; [destruct (TimerThread.running th)|];
    cbn; repeat split; reflexivity.
Qed.

Lemma baseline_worker_fields (a : Baseline.PomodoroApp) :
  Baseline.current_session (Baseline.worker_step a)
  = Baseline.current_session a /\
  Baseline.pomodoro_count (Baseline.worker_step a)
  = Baseline.pomodoro_count a /\
  Baseline.notifications (Baseline.worker_step a)
  = Baseline.notifications a /\
  Baseline.remaining_time (Baseline.worker_step a)
  = Baseline.remaining_time a.
Proof.
  destruct a as [cs n r [th |] b1 b2 b3 ns q]; unfold Baseline.worker_step;
    cbn [Baseline.timer_thread];
    [destruct (TimerThread.step th) as [th' out]|];
    cbn; repeat split; reflexivity.
Qed.

Lemma baseline_notification_sent (a : Baseline.PomodoroApp) :
  Baseline.notifications (Baseline.on_timer_ended a)
  = Baseline.notifications a
    ++ [Baseline.completion_message (Baseline.current_session a)].
Proof.
  destruct a as [cs n r th b1 b2 b3 ns q].
  unfold Baseline.on_timer_ended, Baseline.completion_message,
    Baseline.rotate_session, Baseline.send_notification.
  cbn [Baseline.current_session].
  destruct (String.eqb cs "Work") eqn:Hcs; cbn; rewrite ?Hcs;
    [destruct (_ =? 0)|]; reflexivity.
Qed.

Lemma baseline_count_step (act : Baseline.Action) (a : Baseline.PomodoroApp) :
  Baseline.pomodoro_count (Baseline.exec act a) = Baseline.pomodoro_count a \/
  (act = Baseline.Dispatch /\
   (exists rest, Baseline.pending a = timer_ended :: rest) /\
   Baseline.current_session a = "Work" /\
   Baseline.pomodoro_count (Baseline.exec act a)
   = Baseline.pomodoro_count a + 1).
Proof.
  destruct act; cbn [Baseline.exec].
  - left. apply baseline_start_fields.
  - left. apply baseline_pause_fields.
  - left. apply baseline_resume_fields.
  - left. apply baseline_reset_fields.
  - left. destruct a; reflexivity.
  - left. apply baseline_worker_fields.
  - unfold Baseline.dispatch.
    destruct (Baseline.pending a) as [| [sec |] rest] eqn:Hq.
    + now left.
    + left. destruct a; reflexivity.
    + destruct (baseline_rotation (Baseline.with_pending rest a))
        as [Hw [Hb _]].
      replace (Baseline.current_session (Baseline.with_pending rest a))
        with (Baseline.current_session a) in * by (destruct a; reflexivity).
      replace (Baseline.pomodoro_count (Baseline.with_pending rest a))
        with (Baseline.pomodoro_count a) in * by (destruct a; reflexivity).
      destruct (String.eqb_spec (Baseline.current_session a) "Work")
        as [Hcs | Hcs].
      * right. split; [reflexivity|]. split; [now exists rest|].
        split; [exact Hcs | apply (Hw Hcs)].
      * left. apply (Hb Hcs).
Qed.

Lemma baseline_notifications_step
  (act : Baseline.Action) (a : Baseline.PomodoroApp) :
  Baseline.notifications (Baseline.exec act a) = Baseline.notifications a \/
  (act = Baseline.Dispatch /\
   (exists rest, Baseline.pending a = timer_ended :: rest) /\
   Baseline.notifications (Baseline.exec act a)
   = Baseline.notifications a
     ++ [Baseline.completion_message (Baseline.current_session a)]).
Proof.
  destruct act; cbn [Baseline.exec].
  - left. apply baseline_start_fields.
  - left. apply baseline_pause_fields.
  - left. apply baseline_resume_fields.
  - left. apply baseline_reset_fields.
  - left. destruct a; reflexivity.
  - left. apply baseline_worker_fields.
  - unfold Baseline.dispatch.
    destruct (Baseline.pending a) as [| [sec |] rest] eqn:Hq.
    + now left.
    + left. destruct a; reflexivity.
    + right. split; [reflexivity|]. split; [now exists rest|].
      rewrite baseline_notification_sent. destruct a; reflexivity.
Qed.

(** ** The same for the merged window *)

Lemma merged_reset_no_live_thread (a : Merged.PomodoroApp) :
  Merged.timer_thread (Merged.reset_timer a) = None.
Proof.
  destruct a as [cs n r [th |] p tr fs ns q];
    unfold Merged.reset_timer; cbn [Merged.timer_thread]; [|reflexivity].
  destruct (TimerThread.wait (TimerThread.stop th)) as [th' out].
  reflexivity.
Qed.

Lemma merged_reset_fields (a : Merged.PomodoroApp) :
  Merged.current_session (Merged.reset_timer a)
  = Merged.current_session a /\
  Merged.pomodoro_count (Merged.reset_timer a)
  = Merged.pomodoro_count a /\
  Merged.notifications (Merged.reset_timer a)
  = Merged.notifications a /\
  Merged.remaining_time (Merged.reset_timer a)
  = session_duration (Merged.current_session a) /\
  (Merged.timer_running (Merged.reset_timer a),
   Merged.is_paused (Merged.reset_timer a),
   Merged.is_fullscreen (Merged.reset_timer a)) = (false, false, false).
Proof.
  destruct a as [cs n r [th |] p tr fs ns q];
    unfold Merged.reset_timer; cbn [Merged.timer_thread].
  - destruct (TimerThread.wait (TimerThread.stop th)) as [th' out].
    cbn. repeat split; reflexivity.
  - cbn. repeat split; reflexivity.
Qed.

Lemma merged_start_timer_eq (a : Merged.PomodoroApp) :
  Merged.start_timer_rec 2 a
  = Some
      (let a0 := if Merged.no_live_thread a then a
                 else Merged.reset_timer a in
       Merged.with_flags true false true
         (Merged.with_thread
            (Some (TimerThread.init
                     (session_duration (Merged.current_session a0))))
            a0)).
Proof.
  cbn [Merged.start_timer_rec].
  destruct (Merged.no_live_thread a); [reflexivity|].
  unfold Merged.no_live_thread at 1.
  now rewrite merged_reset_no_live_thread.
Qed.

Lemma merged_start_fields (a : Merged.PomodoroApp) :
  Merged.current_session (Merged.start_timer a)
  = Merged.current_session a /\
  Merged.pomodoro_count (Merged.start_timer a)
  = Merged.pomodoro_count a /\
  Merged.notifications (Merged.start_timer a)
  = Merged.notifications a /\
  Merged.timer_thread (Merged.start_timer a)
  = Some (TimerThread.init (session_duration (Merged.current_session a))).
Proof.
  unfold Merged.start_timer. rewrite merged_start_timer_eq.
  destruct (Merged.no_live_thread a); cbn zeta.
  - destruct a; cbn. repeat split; reflexivity.
  - destruct (merged_reset_fields a) as [Hs [Hc [Hn _]]].
    destruct (Merged.reset_timer a) as [cs n r th p tr fs ns q].
    cbn in *. subst. repeat split; reflexivity.
Qed.

Lemma merged_pause_fields (a : Merged.PomodoroApp) :
  Merged.current_session (Merged.pause_timer a)
  = Merged.current_session a /\
  Merged.pomodoro_count (Merged.pause_timer a)
  = Merged.pomodoro_count a /\
  Merged.notifications (Merged.pause_timer a)
  = Merged.notifications a /\
  Merged.remaining_time (Merged.pause_timer a)
  = Merged.remaining_time a /\
  Merged.pending (Merged.pause_timer a) = Merged.pending a.
Proof.
  destruct a as [cs n r [th |] p tr fs ns q]; unfold Merged.pause_timer;
    cbn [Merged.timer_thread]; [destruct (TimerThread.running th)|];
    cbn; repeat split; reflexivity.
Qed.

Lemma merged_resume_fields (a : Merged.PomodoroApp) :
  Merged.current_session (Merged.resume_timer a)
  = Merged.current_session a /\
  Merged.pomodoro_count (Merged.resume_timer a)
  = Merged.pomodoro_count a /\
  Merged.notifications (Merged.resume_timer a)
  = Merged.notifications a /\
  Merged.remaining_time (Merged.resume_timer a)
  = Merged.remaining_time a /\
  Merged.pending (Merged.resume_timer a) = Merged.pending a.
Proof.
  destruct a as [cs n r [th |] p tr fs ns q]; unfold Merged.resume_timer;
    cbn [Merged.timer_thread]; [destruct (TimerThread.running th)|];
    cbn; repeat split; reflexivity.
Qed.

Lemma merged_toggle_fields (a : Merged.PomodoroApp) :
  Merged.current_session (Merged.toggle_pause_fullscreen a)
  = Merged.current_session a /\
  Merged.pomodoro_count (Merged.toggle_pause_fullscreen a)
  = Merged.pomodoro_count a /\
  Merged.notifications (Merged.toggle_pause_fullscreen a)
  = Merged.notifications a /\
  Merged.remaining_time (Merged.toggle_pause_fullscreen a)
  = Merged.remaining_time a /\
  Merged.pending (Merged.toggle_pause_fullscreen a) = Merged.pending a.
Proof.
  destruct a as [cs n r [th |] p tr fs ns q];
    unfold Merged.toggle_pause_fullscreen;
    cbn [Merged.timer_thread Merged.is_paused]; [destruct p|];
    cbn; repeat split; reflexivity.
Qed.

Lemma merged_primary_fields (a : Merged.PomodoroApp) :
  Merged.current_session (Merged.on_primary_button_clicked a)
  = Merged.current_session a /\
  Merged.pomodoro_count (Merged.on_primary_button_clicked a)
  = Merged.pomodoro_count a /\
  Merged.notifications (Merged.on_primary_button_clicked a)
  = Merged.notifications a.
Proof.
  unfold Merged.on_primary_button_clicked.
  destruct (Merged.no_live_thread a).
  - destruct (merged_start_fields a) as [H1 [H2 [H3 _]]]. auto.
  - destruct (Merged.timer_thread a) as [th |]; [|auto].
    destruct (TimerThread.running th).
    + destruct (merged_pause_fields a) as [H1 [H2 [H3 _]]]. auto.
    + destruct (merged_resume_fields a) as [H1 [H2 [H3 _]]]. auto.
Qed.

Lemma merged_worker_fields (a : Merged.PomodoroApp) :
  Merged.current_session (Merged.worker_step a)
  = Merged.current_session a /\
  Merged.pomodoro_count (Merged.worker_step a)
  = Merged.pomodoro_count a /\
  Merged.notifications (Merged.worker_step a)
  = Merged.notifications a /\
  Merged.remaining_time (Merged.worker_step a)
  = Merged.remaining_time a.
Proof.
  destruct a as [cs n r [th |] p tr fs ns q]; unfold Merged.worker_step;
    cbn [Merged.timer_thread];
    [destruct (TimerThread.step th) as [th' out]|];
    cbn; repeat split; reflexivity.
Qed.

Lemma merged_notification_sent (a : Merged.PomodoroApp) :
  Merged.notifications (Merged.on_timer_ended a)
  = Merged.notifications a
    ++ [Merged.completion_message (Merged.current_session a)].
Proof.
  destruct a as [cs n r th p tr fs ns q].
  unfold Merged.on_timer_ended, Merged.completion_message,
    Merged.rotate_session, Merged.send_notification.
  cbn [Merged.current_session].
  destruct (String.eqb cs "Work") eqn:Hcs; cbn; rewrite ?Hcs;
    [destruct (_ =? 0)|]; reflexivity.
Qed.

Lemma merged_count_step (act : Merged.Action) (a : Merged.PomodoroApp) :
  Merged.pomodoro_count (Merged.exec act a) = Merged.pomodoro_count a \/
  (act = Merged.Dispatch /\
   (exists rest, Merged.pending a = timer_ended :: rest) /\
   Merged.current_session a = "Work" /\
   Merged.pomodoro_count (Merged.exec act a) = Merged.pomodoro_count a + 1).
Proof.
  destruct act; cbn [Merged.exec].
  - left. apply merged_start_fields.
  - left. apply merged_pause_fields.
  - left. apply merged_resume_fields.
  - left. apply merged_reset_fields.
  - left. destruct a; reflexivity.
  - left. apply merged_primary_fields.
  - left. apply merged_toggle_fields.
  - left. apply merged_reset_fields.
  - left. apply merged_worker_fields.
  - unfold Merged.dispatch.
    destruct (Merged.pending a) as [| [sec |] rest] eqn:Hq.
    + now left.
    + left. destruct a; reflexivity.
    + destruct (merged_rotation (Merged.with_pending rest a))
        as [Hw [Hb _]].
      replace (Merged.current_session (Merged.with_pending rest a))
        with (Merged.current_session a) in * by (destruct a; reflexivity).
      replace (Merged.pomodoro_count (Merged.with_pending rest a))
        with (Merged.pomodoro_count a) in * by (destruct a; reflexivity).
      destruct (String.eqb_spec (Merged.current_session a) "Work")
        as [Hcs | Hcs].
      * right. split; [reflexivity|]. split; [now exists rest|].
        split; [exact Hcs | apply (Hw Hcs)].
      * left. apply (Hb Hcs).
Qed.

Lemma merged_notifications_step
  (act : Merged.Action) (a : Merged.PomodoroApp) :
  Merged.notifications (Merged.exec act a) = Merged.notifications a \/
  (act = Merged.Dispatch /\
   (exists rest, Merged.pending a = timer_ended :: rest) /\
   Merged.notifications (Merged.exec act a)
   = Merged.notifications a
     ++ [Merged.completion_message (Merged.current_session a)]).
Proof.
  destruct act; cbn [Merged.exec].
  - left. apply merged_start_fields.
  - left. apply merged_pause_fields.
  - left. apply merged_resume_fields.
  - left. apply merged_reset_fields.
  - left. destruct a; reflexivity.
  - left. apply merged_primary_fields.
  - left. apply merged_toggle_fields.
  - left. apply merged_reset_fields.
  - left. apply merged_worker_fields.
  - unfold Merged.dispatch.
    destruct (Merged.pending a) as [| [sec |] rest] eqn:Hq.
    + now left.
    + left. destruct a; reflexivity.
    + right. split; [reflexivity|]. split; [now exists rest|].
      rewrite merged_notification_sent. destruct a; reflexivity.
Qed.

Lemma baseline_run_cons (act : Baseline.Action) (acts : list Baseline.Action)
  (a : Baseline.PomodoroApp) :
  Baseline.run (act :: acts) a = Baseline.run acts (Baseline.exec act a).
Proof. reflexivity. Qed.

Lemma merged_run_cons (act : Merged.Action) (acts : list Merged.Action)
  (a : Merged.PomodoroApp) :
  Merged.run (act :: acts) a = Merged.run acts (Merged.exec act a).
Proof. reflexivity. Qed.

Lemma baseline_count_run (acts : list Baseline.Action) :
  forall a, Baseline.pomodoro_count a
            <= Baseline.pomodoro_count (Baseline.run acts a).
Proof.
  induction acts as [| act acts IH]; intros a; [cbn; lia|].
  rewrite baseline_run_cons. specialize (IH (Baseline.exec act a)).
  destruct (baseline_count_step act a) as [H | [_ [_ [_ H]]]]; lia.
Qed.

Lemma merged_count_run (acts : list Merged.Action) :
  forall a, Merged.pomodoro_count a
            <= Merged.pomodoro_count (Merged.run acts a).
Proof.
  induction acts as [| act acts IH]; intros a; [cbn; lia|].
  rewrite merged_run_cons. specialize (IH (Merged.exec act a)).
  destruct (merged_count_step act a) as [H | [_ [_ [_ H]]]]; lia.
Qed.

(** ** C10: the counter of completed work sessions *)

(** C10: in both windows every action leaves [pomodoro_count] as it is,
    except the delivery of a [timer_ended] signal while the session is
    Work, which adds exactly 1; hence the counter never decreases along
    any run.  The clicks (start, pause, resume, reset, session choice)
    and the steps of the worker are among the actions that leave it. *)
Theorem pomodoro_count_only_grows_on_work_expiry :
  (forall (act : Baseline.Action) (a : Baseline.PomodoroApp),
     Baseline.pomodoro_count (Baseline.exec act a)
     = Baseline.pomodoro_count a \/
     (act = Baseline.Dispatch /\
      (exists rest, Baseline.pending a = timer_ended :: rest) /\
      Baseline.current_session a = "Work" /\
      Baseline.pomodoro_count (Baseline.exec act a)
      = Baseline.pomodoro_count a + 1)) /\
  (forall (acts : list Baseline.Action) (a : Baseline.PomodoroApp),
     Baseline.pomodoro_count a
     <= Baseline.pomodoro_count (Baseline.run acts a)) /\
  (forall (act : Merged.Action) (a : Merged.PomodoroApp),
     Merged.pomodoro_count (Merged.exec act a) = Merged.pomodoro_count a \/
     (act = Merged.Dispatch /\
      (exists rest, Merged.pending a = timer_ended :: rest) /\
      Merged.current_session a = "Work" /\
      Merged.pomodoro_count (Merged.exec act a)
      = Merged.pomodoro_count a + 1)) /\
  (forall (acts : list Merged.Action) (a : Merged.PomodoroApp),
     Merged.pomodoro_count a <= Merged.pomodoro_count (Merged.run acts a)).
Proof.
  split; [exact baseline_count_step|].
  split; [intros acts a; apply baseline_count_run|].
  split; [exact merged_count_step|].
  intros acts a; apply merged_count_run.
Qed.

(** ** C8: the notification *)

(** C8: in both windows the slot [timer_ended] calls [send_notification]
    once, before the rotation, with the title and message picked from the
    session that just ended: the take-a-break message after Work, the
    back-to-work message after a break.  No other action sends a
    notification, so there is exactly one per delivered expiry. *)
Theorem one_notification_per_expiry :
  (forall a : Baseline.PomodoroApp,
     Baseline.on_timer_ended a
     = Baseline.rotate_session
         (Baseline.send_notification
            (fst (Baseline.completion_message (Baseline.current_session a)))
            (snd (Baseline.completion_message (Baseline.current_session a)))
            a) /\
     Baseline.notifications (Baseline.on_timer_ended a)
     = Baseline.notifications a
       ++ [Baseline.completion_message (Baseline.current_session a)]) /\
  Baseline.completion_message "Work"
  = ("Pomodoro Session Complete!",
     "Time for a break! Click here to start your break session.") /\
  (forall s, s <> "Work" ->
     Baseline.completion_message s
     = ("Break Time Over!",
        "Break session ended. Time to get back to work!")) /\
  (forall (act : Baseline.Action) (a : Baseline.PomodoroApp),
     Baseline.notifications (Baseline.exec act a) = Baseline.notifications a \/
     (act = Baseline.Dispatch /\
      (exists rest, Baseline.pending a = timer_ended :: rest) /\
      Baseline.notifications (Baseline.exec act a)
      = Baseline.notifications a
        ++ [Baseline.completion_message (Baseline.current_session a)])) /\
  (forall a : Merged.PomodoroApp,
     Merged.on_timer_ended a
     = Merged.rotate_session
         (Merged.send_notification
            (fst (Merged.completion_message (Merged.current_session a)))
            (snd (Merged.completion_message (Merged.current_session a)))
            a) /\
     Merged.notifications (Merged.on_timer_ended a)
     = Merged.notifications a
       ++ [Merged.completion_message (Merged.current_session a)]) /\
  Merged.completion_message "Work"
  = ("Pomodoro Session Complete!", "Time for a break!") /\
  (forall s, s <> "Work" ->
     Merged.completion_message s
     = ("Break Time Over!", "Time to get back to work!")) /\
  (forall (act : Merged.Action) (a : Merged.PomodoroApp),
     Merged.notifications (Merged.exec act a) = Merged.notifications a \/
     (act = Merged.Dispatch /\
      (exists rest, Merged.pending a = timer_ended :: rest) /\
      Merged.notifications (Merged.exec act a)
      = Merged.notifications a
        ++ [Merged.completion_message (Merged.current_session a)])).
Proof.
  repeat match goal with |- _ /\ _ => split end.
  - intros a. split; [|apply baseline_notification_sent].
    unfold Baseline.on_timer_ended.
    destruct (Baseline.completion_message (Baseline.current_session a)).
    reflexivity.
  - reflexivity.
  - intros s Hs. unfold Baseline.completion_message.
    now rewrite (proj2 (String.eqb_neq s "Work")).
  - exact baseline_notifications_step.
  - intros a. split; [|apply merged_notification_sent].
    unfold Merged.on_timer_ended.
    destruct (Merged.completion_message (Merged.current_session a)).
    reflexivity.
  - reflexivity.
  - intros s Hs. unfold Merged.completion_message.
    now rewrite (proj2 (String.eqb_neq s "Work")).
  - exact merged_notifications_step.
Qed.

Lemma one_notification_per_expiry_witness :
  "Short Break" <> "Work" /\
  Baseline.completion_message "Short Break"
  = ("Break Time Over!", "Break session ended. Time to get back to work!").
Proof.
  assert (Hne : "Short Break" <> "Work") by discriminate.
  split; [exact Hne|].
  exact (proj1 (proj2 (proj2 one_notification_per_expiry))
           "Short Break" Hne).
Defined.

(** ** C6: reset *)

(** C6: in both windows [reset_timer], from any state and so from a
    running or paused one, leaves no live countdown thread, sets
    [remaining_time] to the duration of the current session and puts the
    buttons (the flags, in the merged window) in their idle position; the
    session is not rotated and the counter and the notification log are
    unchanged. *)
Theorem reset_restores_full_duration :
  (forall a : Baseline.PomodoroApp,
     Baseline.no_live_thread (Baseline.reset_timer a) = true /\
     Baseline.current_session (Baseline.reset_timer a)
     = Baseline.current_session a /\
     Baseline.pomodoro_count (Baseline.reset_timer a)
     = Baseline.pomodoro_count a /\
     Baseline.notifications (Baseline.reset_timer a)
     = Baseline.notifications a /\
     Baseline.remaining_time (Baseline.reset_timer a)
     = session_duration (Baseline.current_session a) /\
     (Baseline.start_button (Baseline.reset_timer a),
      Baseline.pause_button (Baseline.reset_timer a),
      Baseline.resume_button (Baseline.reset_timer a))
     = (true, false, false)) /\
  (forall a : Merged.PomodoroApp,
     Merged.timer_thread (Merged.reset_timer a) = None /\
     Merged.current_session (Merged.reset_timer a)
     = Merged.current_session a /\
     Merged.pomodoro_count (Merged.reset_timer a)
     = Merged.pomodoro_count a /\
     Merged.notifications (Merged.reset_timer a)
     = Merged.notifications a /\
     Merged.remaining_time (Merged.reset_timer a)
     = session_duration (Merged.current_session a) /\
     (Merged.timer_running (Merged.reset_timer a),
      Merged.is_paused (Merged.reset_timer a),
      Merged.is_fullscreen (Merged.reset_timer a))
     = (false, false, false)).
Proof.
  split; intros a.
  - split; [apply baseline_reset_no_live_thread | apply baseline_reset_fields].
  - split; [apply merged_reset_no_live_thread | apply merged_reset_fields].
Qed.

(** ** C7: choosing the session type *)

(** C7, refuted as stated.  In the baseline window a work session is
    started and two ticks are delivered, so the countdown is running and
    the display is at 1499.  Clicking "Short Break" now is neither
    rejected nor deferred: the session and the remaining time are
    overwritten at once. *)
Lemma set_session_while_running_takes_effect :
  Baseline.no_live_thread
    (Baseline.run ([Baseline.ClickStart; Baseline.Worker]
                   ++ Baseline.seconds 1
                   ++ [Baseline.Worker; Baseline.Dispatch])
       Baseline.init) = false /\
  (Baseline.current_session
     (Baseline.run ([Baseline.ClickStart; Baseline.Worker]
                    ++ Baseline.seconds 1
                    ++ [Baseline.Worker; Baseline.Dispatch])
        Baseline.init),
   Baseline.remaining_time
     (Baseline.run ([Baseline.ClickStart; Baseline.Worker]
                    ++ Baseline.seconds 1
                    ++ [Baseline.Worker; Baseline.Dispatch])
        Baseline.init)) = ("Work", 1499) /\
  (Baseline.current_session
     (Baseline.run ([Baseline.ClickStart; Baseline.Worker]
                    ++ Baseline.seconds 1
                    ++ [Baseline.Worker; Baseline.Dispatch;
                        Baseline.ClickSession "Short Break"])
        Baseline.init),
   Baseline.remaining_time
     (Baseline.run ([Baseline.ClickStart; Baseline.Worker]
                    ++ Baseline.seconds 1
                    ++ [Baseline.Worker; Baseline.Dispatch;
                        Baseline.ClickSession "Short Break"])
        Baseline.init)) = ("Short Break", 300).
Proof. vm_compute. repeat split; reflexivity. Qed.

(** C7, amended: in both windows [set_session t] takes effect in every
    phase.  It sets the session to [t] and [remaining_time] to the
    duration of [t]; it changes neither the counter nor the countdown
    thread (its duration, remaining seconds and flags) nor the queue, so a
    running countdown keeps ticking with the values it had. *)
Theorem set_session_is_unconditional :
  (forall (t : string) (a : Baseline.PomodoroApp),
     Baseline.current_session (Baseline.set_session t a) = t /\
     Baseline.remaining_time (Baseline.set_session t a)
     = session_duration t /\
     Baseline.pomodoro_count (Baseline.set_session t a)
     = Baseline.pomodoro_count a /\
     Baseline.timer_thread (Baseline.set_session t a)
     = Baseline.timer_thread a /\
     Baseline.pending (Baseline.set_session t a) = Baseline.pending a) /\
  (forall (t : string) (a : Merged.PomodoroApp),
     Merged.current_session (Merged.set_session t a) = t /\
     Merged.remaining_time (Merged.set_session t a) = session_duration t /\
     Merged.pomodoro_count (Merged.set_session t a)
     = Merged.pomodoro_count a /\
     Merged.timer_thread (Merged.set_session t a) = Merged.timer_thread a /\
     Merged.pending (Merged.set_session t a) = Merged.pending a).
Proof.
  split; intros t a; destruct a; cbn; repeat split; reflexivity.
Qed.

(** ** C5: Start while a countdown exists *)

(** Where the countdown thread is still alive, Start is Reset followed by
    Start, state for state; and Start always arms a fresh thread of the
    full duration, never the old one. *)
Lemma baseline_start_on_live_thread (a : Baseline.PomodoroApp) :
  Baseline.no_live_thread a = false ->
  Baseline.exec Baseline.ClickStart a
  = Baseline.run [Baseline.ClickReset; Baseline.ClickStart] a.
Proof.
  intros Hlive. cbn [Baseline.run fold_left Baseline.exec].
  unfold Baseline.start_timer. rewrite !baseline_start_timer_eq.
  now rewrite Hlive, baseline_reset_no_live_thread.
Qed.

Lemma merged_start_on_live_thread (a : Merged.PomodoroApp) :
  Merged.no_live_thread a = false ->
  Merged.exec Merged.StartTimer a
  = Merged.run [Merged.ResetTimer; Merged.StartTimer] a.
Proof.
  intros Hlive. cbn [Merged.run fold_left Merged.exec].
  unfold Merged.start_timer. rewrite !merged_start_timer_eq.
  rewrite Hlive. unfold Merged.no_live_thread at 1.
  now rewrite merged_reset_no_live_thread.
Qed.

(** C5, the failing run, in both windows.  A work session is started, two
    ticks are delivered (the display is at 1499), Pause is clicked and the
    worker runs on: it leaves its loop and returns.  The window still
    shows a paused timer (Resume enabled; [is_paused] set), but
    [isFinished()] now holds, so Start takes the branch that arms a fresh
    thread without calling [reset_timer]: [remaining_time] stays at 1499,
    where Reset followed by Start gives 1500.  In neither case is the old
    countdown resumed. *)
Theorem start_after_pause_skips_reset :
  (Baseline.resume_button
     (Baseline.run ([Baseline.ClickStart; Baseline.Worker]
                    ++ Baseline.seconds 1
                    ++ [Baseline.Worker; Baseline.Dispatch;
                        Baseline.ClickPause;
                        Baseline.Worker; Baseline.Worker; Baseline.Worker])
        Baseline.init) = true /\
   Baseline.remaining_time
     (Baseline.run ([Baseline.ClickStart; Baseline.Worker]
                    ++ Baseline.seconds 1
                    ++ [Baseline.Worker; Baseline.Dispatch;
                        Baseline.ClickPause;
                        Baseline.Worker; Baseline.Worker; Baseline.Worker;
                        Baseline.ClickStart])
        Baseline.init) = 1499 /\
   Baseline.remaining_time
     (Baseline.run ([Baseline.ClickStart; Baseline.Worker]
                    ++ Baseline.seconds 1
                    ++ [Baseline.Worker; Baseline.Dispatch;
                        Baseline.ClickPause;
                        Baseline.Worker; Baseline.Worker; Baseline.Worker;
                        Baseline.ClickReset; Baseline.ClickStart])
        Baseline.init) = 1500) /\
  ((Merged.timer_running
      (Merged.run ([Merged.StartTimer; Merged.Worker]
                   ++ Merged.seconds 1
                   ++ [Merged.Worker; Merged.Dispatch; Merged.TogglePause;
                       Merged.Worker; Merged.Worker; Merged.Worker])
         Merged.init),
    Merged.is_paused
      (Merged.run ([Merged.StartTimer; Merged.Worker]
                   ++ Merged.seconds 1
                   ++ [Merged.Worker; Merged.Dispatch; Merged.TogglePause;
                       Merged.Worker; Merged.Worker; Merged.Worker])
         Merged.init)) = (true, true) /\
   Merged.remaining_time
     (Merged.run ([Merged.StartTimer; Merged.Worker]
                  ++ Merged.seconds 1
                  ++ [Merged.Worker; Merged.Dispatch; Merged.TogglePause;
                      Merged.Worker; Merged.Worker; Merged.Worker;
                      Merged.StartTimer])
        Merged.init) = 1499 /\
   Merged.remaining_time
     (Merged.run ([Merged.StartTimer; Merged.Worker]
                  ++ Merged.seconds 1
                  ++ [Merged.Worker; Merged.Dispatch; Merged.TogglePause;
                      Merged.Worker; Merged.Worker; Merged.Worker;
                      Merged.ResetTimer; Merged.StartTimer])
        Merged.init) = 1500).
Proof. vm_compute. repeat split; reflexivity. Qed.

(** ** C9: the bound on the remaining time *)

Lemma baseline_inv_init : baseline_inv Baseline.init.
Proof.
  unfold baseline_inv, POMODORO_DURATION. cbn.
  split; [lia|]. split; [exact I | constructor].
Qed.

Lemma baseline_inv_reset (a : Baseline.PomodoroApp) :
  baseline_inv a -> baseline_inv (Baseline.reset_timer a).
Proof.
  destruct a as [cs n r [th |] b1 b2 b3 ns q]; unfold baseline_inv;
    unfold Baseline.reset_timer;
    cbn [Baseline.timer_thread Baseline.remaining_time Baseline.pending
         opt_thread_ok];
    intros [Hr [Hth Hq]].
  - destruct (wait_ok (TimerThread.stop th) (stop_ok th Hth)) as [Hth' Hout].
    destruct (TimerThread.wait (TimerThread.stop th)) as [th' out].
    cbn [fst snd] in *. cbn.
    split; [apply session_duration_bounds|].
    split; [exact Hth' | apply Forall_app; split; assumption].
  - cbn. split; [apply session_duration_bounds|]. split; [exact I | exact Hq].
Qed.

Lemma baseline_inv_start (a : Baseline.PomodoroApp) :
  baseline_inv a -> baseline_inv (Baseline.start_timer a).
Proof.
  intros Hinv. unfold Baseline.start_timer.
  rewrite baseline_start_timer_eq. cbn zeta.
  assert (Hinv0 : baseline_inv
                    (if Baseline.no_live_thread a then a
                     else Baseline.reset_timer a))
    by (destruct (Baseline.no_live_thread a);
        [exact Hinv | apply baseline_inv_reset, Hinv]).
  destruct (if Baseline.no_live_thread a then a else Baseline.reset_timer a)
    as [cs n r th b1 b2 b3 ns q].
  unfold baseline_inv in *. cbn in *.
  destruct Hinv0 as [Hr [_ Hq]].
  split; [exact Hr|]. split; [apply init_ok | exact Hq].
Qed.

Lemma baseline_inv_ended (a : Baseline.PomodoroApp) :
  baseline_inv a -> baseline_inv (Baseline.on_timer_ended a).
Proof.
  intros [_ [Hth Hq]]. unfold baseline_inv.
  destruct (baseline_rotation a) as [_ [_ Hr]]. rewrite Hr.
  split; [apply session_duration_bounds|].
  destruct a as [cs n r th b1 b2 b3 ns q].
  unfold Baseline.on_timer_ended, Baseline.completion_message,
    Baseline.rotate_session, Baseline.send_notification.
  cbn [Baseline.current_session] in *.
  destruct (String.eqb cs "Work") eqn:Hcs; cbn; rewrite ?Hcs;
    [destruct (_ =? 0)|]; cbn; split; assumption.
Qed.

Lemma baseline_inv_exec (act : Baseline.Action) (a : Baseline.PomodoroApp) :
  baseline_inv a -> baseline_inv (Baseline.exec act a).
Proof.
  intros Hinv. destruct act; cbn [Baseline.exec].
  - apply baseline_inv_start, Hinv.
  - destruct a as [cs n r [th |] b1 b2 b3 ns q]; unfold Baseline.pause_timer;
      cbn [Baseline.timer_thread]; [|exact Hinv].
    destruct (TimerThread.running th); [|exact Hinv].
    destruct Hinv as [Hr [Hth Hq]]. unfold baseline_inv. cbn in *.
    split; [exact Hr|]. split; [apply pause_ok, Hth | exact Hq].
  - destruct a as [cs n r [th |] b1 b2 b3 ns q]; unfold Baseline.resume_timer;
      cbn [Baseline.timer_thread]; [|exact Hinv].
    destruct (negb (TimerThread.running th)); [|exact Hinv].
    destruct Hinv as [Hr [Hth Hq]]. unfold baseline_inv. cbn in *.
    split; [exact Hr|]. split; [apply resume_ok, Hth | exact Hq].
  - apply baseline_inv_reset, Hinv.
  - destruct Hinv as [_ [Hth Hq]]. destruct a; unfold baseline_inv.
    cbn in *. split; [apply session_duration_bounds|]. split; assumption.
  - destruct a as [cs n r [th |] b1 b2 b3 ns q]; unfold Baseline.worker_step;
      cbn [Baseline.timer_thread]; [|exact Hinv].
    destruct Hinv as [Hr [Hth Hq]]. cbn in Hr, Hth, Hq.
    destruct (step_ok th Hth) as [Hth' Hout].
    destruct (TimerThread.step th) as [th' out]. cbn [fst snd] in *.
    unfold baseline_inv. cbn.
    split; [exact Hr|]. split; [exact Hth' | apply Forall_app; now split].
  - unfold Baseline.dispatch.
    destruct (Baseline.pending a) as [| [sec |] rest] eqn:Hq; [exact Hinv| |].
    + destruct Hinv as [_ [Hth Hall]]. rewrite Hq in Hall.
      inversion Hall as [| sg l Hsg Hrest]; subst.
      destruct a; unfold baseline_inv. cbn in *.
      split; [exact Hsg|]. split; assumption.
    + apply baseline_inv_ended.
      destruct Hinv as [Hr [Hth Hall]]. rewrite Hq in Hall.
      inversion Hall as [| sg l Hsg Hrest]; subst.
      destruct a; unfold baseline_inv. cbn in *.
      split; [exact Hr|]. split; assumption.
Qed.

Lemma baseline_inv_run (acts : list Baseline.Action) :
  forall a, baseline_inv a -> baseline_inv (Baseline.run acts a).
Proof.
  induction acts as [| act acts IH]; intros a Hinv; [exact Hinv|].
  rewrite baseline_run_cons. apply IH, baseline_inv_exec, Hinv.
Qed.

Lemma merged_inv_init : merged_inv Merged.init.
Proof.
  unfold merged_inv, POMODORO_DURATION. cbn.
  split; [lia|]. split; [exact I | constructor].
Qed.

Lemma merged_inv_reset (a : Merged.PomodoroApp) :
  merged_inv a -> merged_inv (Merged.reset_timer a).
Proof.
  destruct a as [cs n r [th |] p tr fs ns q]; unfold merged_inv;
    unfold Merged.reset_timer;
    cbn [Merged.timer_thread Merged.remaining_time Merged.pending
         opt_thread_ok];
    intros [Hr [Hth Hq]].
  - destruct (wait_ok (TimerThread.stop th) (stop_ok th Hth)) as [_ Hout].
    destruct (TimerThread.wait (TimerThread.stop th)) as [th' out].
    cbn [fst snd] in *. cbn.
    split; [apply session_duration_bounds|].
    split; [exact I | apply Forall_app; split; assumption].
  - cbn. split; [apply session_duration_bounds|]. split; [exact I | exact Hq].
Qed.

Lemma merged_inv_start (a : Merged.PomodoroApp) :
  merged_inv a -> merged_inv (Merged.start_timer a).
Proof.
  intros Hinv. unfold Merged.start_timer.
  rewrite merged_start_timer_eq. cbn zeta.
  assert (Hinv0 : merged_inv
                    (if Merged.no_live_thread a then a
                     else Merged.reset_timer a))
    by (destruct (Merged.no_live_thread a);
        [exact Hinv | apply merged_inv_reset, Hinv]).
  destruct (if Merged.no_live_thread a then a else Merged.reset_timer a)
    as [cs n r th p tr fs ns q].
  unfold merged_inv in *. cbn in *.
  destruct Hinv0 as [Hr [_ Hq]].
  split; [exact Hr|]. split; [apply init_ok | exact Hq].
Qed.

Lemma merged_inv_pause (a : Merged.PomodoroApp) :
  merged_inv a -> merged_inv (Merged.pause_timer a).
Proof.
  intros Hinv.
  destruct a as [cs n r [th |] p tr fs ns q]; unfold Merged.pause_timer;
    cbn [Merged.timer_thread]; [|exact Hinv].
  destruct (TimerThread.running th); [|exact Hinv].
  destruct Hinv as [Hr [Hth Hq]]. unfold merged_inv. cbn in *.
  split; [exact Hr|]. split; [apply pause_ok, Hth | exact Hq].
Qed.

Lemma merged_inv_resume (a : Merged.PomodoroApp) :
  merged_inv a -> merged_inv (Merged.resume_timer a).
Proof.
  intros Hinv.
  destruct a as [cs n r [th |] p tr fs ns q]; unfold Merged.resume_timer;
    cbn [Merged.timer_thread]; [|exact Hinv].
  destruct (negb (TimerThread.running th)); [|exact Hinv].
  destruct Hinv as [Hr [Hth Hq]]. unfold merged_inv. cbn in *.
  split; [exact Hr|]. split; [apply resume_ok, Hth | exact Hq].
Qed.

Lemma merged_inv_ended (a : Merged.PomodoroApp) :
  merged_inv a -> merged_inv (Merged.on_timer_ended a).
Proof.
  intros [_ [Hth Hq]]. unfold merged_inv.
  destruct (merged_rotation a) as [_ [_ Hr]]. rewrite Hr.
  split; [apply session_duration_bounds|].
  destruct a as [cs n r th p tr fs ns q].
  unfold Merged.on_timer_ended, Merged.completion_message,
    Merged.rotate_session, Merged.send_notification.
  cbn [Merged.current_session] in *.
  destruct (String.eqb cs "Work") eqn:Hcs; cbn; rewrite ?Hcs;
    [destruct (_ =? 0)|]; cbn; split; assumption.
Qed.

Lemma merged_inv_exec (act : Merged.Action) (a : Merged.PomodoroApp) :
  merged_inv a -> merged_inv (Merged.exec act a).
Proof.
  intros Hinv. destruct act; cbn [Merged.exec].
  - apply merged_inv_start, Hinv.
  - apply merged_inv_pause, Hinv.
  - apply merged_inv_resume, Hinv.
  - apply merged_inv_reset, Hinv.
  - destruct Hinv as [_ [Hth Hq]]. destruct a; unfold merged_inv.
    cbn in *. split; [apply session_duration_bounds|]. split; assumption.
  - unfold Merged.on_primary_button_clicked.
    destruct (Merged.no_live_thread a); [apply merged_inv_start, Hinv|].
    destruct (Merged.timer_thread a) as [th |]; [|exact Hinv].
    destruct (TimerThread.running th);
      [apply merged_inv_pause | apply merged_inv_resume]; exact Hinv.
  - destruct a as [cs n r [th |] p tr fs ns q];
      unfold Merged.toggle_pause_fullscreen;
      cbn [Merged.timer_thread Merged.is_paused]; [|exact Hinv].
    destruct Hinv as [Hr [Hth Hq]]. unfold merged_inv.
    destruct p; cbn in *;
      (split; [exact Hr|]); (split; [|exact Hq]);
      [apply resume_ok | apply pause_ok]; exact Hth.
  - apply merged_inv_reset, Hinv.
  - destruct a as [cs n r [th |] p tr fs ns q]; unfold Merged.worker_step;
      cbn [Merged.timer_thread]; [|exact Hinv].
    destruct Hinv as [Hr [Hth Hq]]. cbn in Hr, Hth, Hq.
    destruct (step_ok th Hth) as [Hth' Hout].
    destruct (TimerThread.step th) as [th' out]. cbn [fst snd] in *.
    unfold merged_inv. cbn.
    split; [exact Hr|]. split; [exact Hth' | apply Forall_app; now split].
  - unfold Merged.dispatch.
    destruct (Merged.pending a) as [| [sec |] rest] eqn:Hq; [exact Hinv| |].
    + destruct Hinv as [_ [Hth Hall]]. rewrite Hq in Hall.
      inversion Hall as [| sg l Hsg Hrest]; subst.
      destruct a; unfold merged_inv. cbn in *.
      split; [exact Hsg|]. split; assumption.
    + apply merged_inv_ended.
      destruct Hinv as [Hr [Hth Hall]]. rewrite Hq in Hall.
      inversion Hall as [| sg l Hsg Hrest]; subst.
      destruct a; unfold merged_inv. cbn in *.
      split; [exact Hr|]. split; assumption.
Qed.

Lemma merged_inv_run (acts : list Merged.Action) :
  forall a, merged_inv a -> merged_inv (Merged.run acts a).
Proof.
  induction acts as [| act acts IH]; intros a Hinv; [exact Hinv|].
  rewrite merged_run_cons. apply IH, merged_inv_exec, Hinv.
Qed.

(** C9, refuted as stated.  In the baseline window Start is clicked on
    the initial state, then "Short Break"; the worker, armed with 1500
    seconds, emits its first tick and the event loop delivers it.  The
    session is now the short break, whose duration is 300, and the
    remaining time is 1500. *)
Lemma remaining_time_exceeds_session_duration :
  Baseline.current_session
    (Baseline.run [Baseline.ClickStart; Baseline.ClickSession "Short Break";
                   Baseline.Worker; Baseline.Worker; Baseline.Dispatch]
       Baseline.init) = "Short Break" /\
  Baseline.remaining_time
    (Baseline.run [Baseline.ClickStart; Baseline.ClickSession "Short Break";
                   Baseline.Worker; Baseline.Worker; Baseline.Dispatch]
       Baseline.init) = 1500 /\
  ~ (0 <= Baseline.remaining_time
            (Baseline.run [Baseline.ClickStart;
                           Baseline.ClickSession "Short Break";
                           Baseline.Worker; Baseline.Worker;
                           Baseline.Dispatch]
               Baseline.init)
     <= session_duration
          (Baseline.current_session
             (Baseline.run [Baseline.ClickStart;
                            Baseline.ClickSession "Short Break";
                            Baseline.Worker; Baseline.Worker;
                            Baseline.Dispatch]
                Baseline.init))).
Proof.
  split; [reflexivity|]. split; [reflexivity|].
  vm_compute. intros [_ H]. apply H. reflexivity.
Qed.

(** * Further properties of the code *)

(** ** The worker under any interleaving *)

Lemma ticks_down_to_self (d : Z) : ticks_down_to d d = [].
Proof. unfold ticks_down_to. now rewrite Z.sub_diag. Qed.

Lemma ticks_down_to_next (d r : Z) :
  r <= d ->
  ticks_down_to d r ++ [time_updated r] = ticks_down_to d (r - 1).
Proof.
  intros Hr. unfold ticks_down_to.
  replace (Z.to_nat (d - (r - 1))) with (S (Z.to_nat (d - r))) by lia.
  rewrite seq_S, !map_app. cbn [map Nat.add].
  do 3 f_equal. lia.
Qed.

Lemma ticks_down_to_zero (d : Z) :
  ticks_down_to d 0 = map time_updated (countdown_values d).
Proof. unfold ticks_down_to, countdown_values. now rewrite Z.sub_0_r. Qed.

Lemma ticks_down_to_prefix (d r : Z) :
  Z.min d 0 <= r <= d ->
  exists rest, ticks_down_to d r ++ rest = map time_updated (countdown_values d).
Proof.
  intros Hr. unfold ticks_down_to, countdown_values.
  exists (map time_updated
            (map (fun k => d - Z.of_nat k)
               (seq (Z.to_nat (d - r)) (Z.to_nat d - Z.to_nat (d - r))))).
  rewrite <- !map_app, <- seq_app. do 3 f_equal. lia.
Qed.

Lemma schedule_inv_event (d : Z) (e : TimerThread.Event)
  (st : TimerThread.t * list Signal) :
  schedule_inv d st -> schedule_inv d (TimerThread.apply_event e st).
Proof.
  destruct st as [[d0 r run stp p] out]. unfold schedule_inv.
  destruct e; cbn [TimerThread.apply_event fst snd];
    try (unfold TimerThread.pause, TimerThread.resume, TimerThread.stop;
         thread_fields; tauto).
  unfold TimerThread.step, TimerThread.guard. thread_fields.
  intros [-> Hinv].
  destruct p; thread_fields.
  - subst out. split; [reflexivity|]. split; [lia|].
    now rewrite ticks_down_to_self.
  - destruct Hinv as [Hr ->].
    destruct (0 <? r) eqn:H0; cbn [andb].
    + apply Z.ltb_lt in H0.
      destruct (run && negb stp); thread_fields.
      * split; [reflexivity|]. split; [lia|].
        apply ticks_down_to_next. lia.
      * split; [reflexivity|]. split; [lia|]. now rewrite app_nil_r.
    + thread_fields. split; [reflexivity|]. split; [lia|].
      now rewrite app_nil_r.
  - destruct Hinv as [Hr ->]. split; [reflexivity|]. split; [lia|].
    now rewrite app_nil_r.
  - destruct Hinv as [Hr ->]. split; [reflexivity|]. split; [lia|].
    reflexivity.
  - destruct Hinv as [Hr ->]. split; [reflexivity|]. split; [lia|].
    now rewrite app_nil_r.
Qed.

Lemma schedule_inv_events (d : Z) (es : list TimerThread.Event) :
  forall st, schedule_inv d st ->
  schedule_inv d (fold_left (fun st e => TimerThread.apply_event e st) es st).
Proof.
  induction es as [| e es IH]; intros st Hinv; [exact Hinv|].
  cbn [fold_left]. apply IH, schedule_inv_event, Hinv.
Qed.

(** Whatever the GUI thread does to a worker (pause, resume and stop, in
    any order and between any two steps), what the worker has emitted is
    an initial part of what it emits when left alone: the ticks
    [d, d-1, ...] in this order, none skipped and none repeated, and the
    expiry at most once, after the tick that carries 1. *)
Theorem emitted_is_prefix_of_undisturbed_run
  (d : Z) (es : list TimerThread.Event) :
  exists rest,
    snd (TimerThread.schedule es (TimerThread.init d)) ++ rest
    = map time_updated (countdown_values d) ++ [timer_ended].
Proof.
  assert (Hinit : schedule_inv d (TimerThread.init d, []))
    by (split; reflexivity).
  pose proof (schedule_inv_events d es _ Hinit) as Hinv.
  unfold TimerThread.schedule.
  destruct (fold_left _ es _) as [[d0 r run stp p] out].
  unfold schedule_inv in Hinv. cbn [fst snd] in *.
  thread_fields_in Hinv.
  destruct Hinv as [-> Hinv].
  assert (Hpre : forall r', Z.min d 0 <= r' <= d ->
            exists rest, ticks_down_to d r' ++ rest
                         = map time_updated (countdown_values d)
                           ++ [timer_ended]).
  { intros r' Hr'. destruct (ticks_down_to_prefix d r' Hr') as [rest Hrest].
    exists (rest ++ [timer_ended]). now rewrite app_assoc, Hrest. }
  destruct p.
  - subst out. eexists. reflexivity.
  - destruct Hinv as [Hr ->]. apply Hpre, Hr.
  - destruct Hinv as [Hr ->]. apply Hpre. lia.
  - destruct Hinv as [Hr ->]. apply Hpre, Hr.
  - destruct Hinv as [Hr ->].
    destruct (r <=? 0) eqn:H0.
    + apply Z.leb_le in H0. exists [].
      rewrite app_nil_r. f_equal.
      destruct (Z_lt_le_dec 0 d) as [Hd | Hd].
      * replace r with 0 by lia. apply ticks_down_to_zero.
      * replace r with d by lia. rewrite ticks_down_to_self.
        unfold countdown_values.
        replace (Z.to_nat d) with 0%nat by lia. reflexivity.
    + rewrite app_nil_r. apply Hpre, Hr.
Qed.

(** ** Stopping a worker *)

Lemma run_thread_stable (n : nat) :
  forall (m : nat) (th : TimerThread.t),
  (n <= m)%nat ->
  TimerThread.isFinished (fst (TimerThread.run_thread n th)) = true ->
  TimerThread.run_thread m th = TimerThread.run_thread n th.
Proof.
  induction n as [| n IH]; intros m th Hle Hfin.
  - cbn in Hfin. cbn [TimerThread.run_thread].
    now apply run_thread_of_finished.
  - destruct m as [| m]; [lia|].
    destruct (TimerThread.isFinished th) eqn:Hth.
    + now rewrite !run_thread_of_finished.
    + rewrite !run_thread_unfold by assumption.
      rewrite run_thread_unfold in Hfin by assumption. cbn [fst] in Hfin.
      now rewrite (IH m (fst (TimerThread.step th)) ltac:(lia) Hfin).
Qed.

Lemma stopped_thread_in_three_steps (th : TimerThread.t) :
  TimerThread.isFinished
    (fst (TimerThread.run_thread 3 (TimerThread.stop th))) = true /\
  (length (filter is_expiry
             (snd (TimerThread.run_thread 3 (TimerThread.stop th))))
   <= 1)%nat /\
  (TimerThread.remaining
     (fst (TimerThread.run_thread 3 (TimerThread.stop th)))
   = TimerThread.remaining th \/
   TimerThread.remaining
     (fst (TimerThread.run_thread 3 (TimerThread.stop th)))
   = TimerThread.remaining th - 1 \/
   (TimerThread.pc th = TimerThread.Entry /\
    TimerThread.remaining
      (fst (TimerThread.run_thread 3 (TimerThread.stop th)))
    = TimerThread.duration th)).
Proof.
  destruct th as [d r run stp p]. unfold TimerThread.stop. thread_fields.
  destruct p.
  - do 2 thread_step. rewrite andb_false_r. thread_fields. thread_step.
    rewrite run_thread_of_finished by reflexivity. thread_fields.
    cbn [app]. split; [reflexivity|].
    split; [destruct (d <=? 0); cbn; lia|]. right; right. now split.
  - thread_step. rewrite andb_false_r. thread_fields. thread_step.
    rewrite run_thread_of_finished by reflexivity. thread_fields.
    cbn [app]. split; [reflexivity|].
    split; [destruct (r <=? 0); cbn; lia | now left].
  - do 2 thread_step. rewrite andb_false_r. thread_fields. thread_step.
    rewrite run_thread_of_finished by reflexivity. thread_fields.
    cbn [app]. split; [reflexivity|].
    split; [destruct (r - 1 <=? 0); cbn; lia | right; now left].
  - thread_step.
    rewrite run_thread_of_finished by reflexivity. thread_fields.
    cbn [app]. split; [reflexivity|].
    split; [destruct (r <=? 0); cbn; lia | now left].
  - rewrite run_thread_of_finished by reflexivity. thread_fields.
    split; [reflexivity|]. split; [cbn; lia | now left].
Qed.

Lemma wait_of_stopped_thread (th : TimerThread.t) :
  TimerThread.wait (TimerThread.stop th)
  = TimerThread.run_thread 3 (TimerThread.stop th).
Proof.
  destruct (stopped_thread_in_three_steps th) as [Hfin _].
  unfold TimerThread.wait.
  destruct (Nat.le_ge_cases 3
              (TimerThread.steps_left (TimerThread.stop th))) as [H | H].
  - now apply run_thread_stable.
  - symmetry. apply run_thread_stable; [exact H|].
    apply (wait_finished (TimerThread.stop th)).
Qed.


(** [stop()] is prompt: from wherever the worker is, the [wait()] that
    follows returns a finished worker that has counted down at most one
    more second (the sleep in progress) and has emitted the expiry at
    most once. *)
Theorem stop_counts_down_at_most_one_more_second (th : TimerThread.t) :
  TimerThread.isFinished (fst (TimerThread.wait (TimerThread.stop th)))
  = true /\
  (length (filter is_expiry (snd (TimerThread.wait (TimerThread.stop th))))
   <= 1)%nat /\
  (TimerThread.remaining (fst (TimerThread.wait (TimerThread.stop th)))
   = TimerThread.remaining th \/
   TimerThread.remaining (fst (TimerThread.wait (TimerThread.stop th)))
   = TimerThread.remaining th - 1 \/
   (TimerThread.pc th = TimerThread.Entry /\
    TimerThread.remaining (fst (TimerThread.wait (TimerThread.stop th)))
    = TimerThread.duration th)).
Proof.
  rewrite wait_of_stopped_thread. apply stopped_thread_in_three_steps.
Qed.

(** ** A duration that is not positive *)

(** A countdown created with a duration of 0 or less does not tick at
    all: the worker skips the loop and emits the expiry at once. *)
Theorem nonpositive_duration_expires_at_once (d : Z) :
  d <= 0 ->
  TimerThread.wait (TimerThread.init d)
  = (TimerThread.mk d d true false TimerThread.Finished, [timer_ended]).
Proof.
  intros Hd. unfold TimerThread.wait, TimerThread.steps_left, TimerThread.init.
  thread_fields.
  replace (2 * Z.to_nat d + 3)%nat with 3%nat by lia.
  do 2 thread_step.
  replace (0 <? d) with false by (symmetry; apply Z.ltb_ge; lia).
  cbn [andb]. thread_fields. thread_step.
  replace (d <=? 0) with true by (symmetry; apply Z.leb_le; lia).
  rewrite run_thread_of_finished by reflexivity. reflexivity.
Qed.

Lemma nonpositive_duration_expires_at_once_witness :
  0 <= 0 /\
  TimerThread.wait (TimerThread.init 0)
  = (TimerThread.mk 0 0 true false TimerThread.Finished, [timer_ended]).
Proof.
  split; [lia|].
  exact (nonpositive_duration_expires_at_once 0 ltac:(lia)).
Defined.

(** ** The time label *)

Lemma format_time_table :
  forallb
    (fun k =>
       let s := Z.of_nat k in
       String.eqb (format_time s)
         (String (digit_char (s / 600))
            (String (digit_char ((s / 60) mod 10))
               (String ":"%char
                  (String (digit_char ((s mod 60) / 10))
                     (String (digit_char (s mod 10)) EmptyString)))))
       && (read_label (format_time s) =? s))
    (seq 0 (Z.to_nat 6000)) = true.
Proof. vm_compute. reflexivity. Qed.

Lemma format_time_entry (s : Z) :
  0 <= s < 6000 ->
  format_time s
  = String (digit_char (s / 600))
      (String (digit_char ((s / 60) mod 10))
         (String ":"%char
            (String (digit_char ((s mod 60) / 10))
               (String (digit_char (s mod 10)) EmptyString)))) /\
  read_label (format_time s) = s.
Proof.
  intros Hs.
  pose proof (proj1 (forallb_forall _ _) format_time_table (Z.to_nat s))
    as Hrow.
  cbv beta zeta in Hrow. rewrite Z2Nat.id in Hrow by lia.
  specialize (Hrow ltac:(apply in_seq; lia)).
  apply andb_true_iff in Hrow. destruct Hrow as [Hfmt Hread].
  split; [now apply String.eqb_eq | now apply Z.eqb_eq].
Qed.

(** For less than a hundred minutes [format_time] gives exactly five
    characters: the two digits of the minutes, a colon, the two digits of
    the seconds, each pair filled with a leading zero. *)
Theorem format_time_is_mm_colon_ss (s : Z) :
  0 <= s < 6000 ->
  format_time s
  = String (digit_char (s / 600))
      (String (digit_char ((s / 60) mod 10))
         (String ":"%char
            (String (digit_char ((s mod 60) / 10))
               (String (digit_char (s mod 10)) EmptyString)))) /\
  String.length (format_time s) = 5%nat.
Proof.
  intros Hs. destruct (format_time_entry s Hs) as [Hfmt _].
  split; [exact Hfmt | now rewrite Hfmt].
Qed.

Lemma format_time_is_mm_colon_ss_witness :
  0 <= 65 < 6000 /\ format_time 65 = "01:05".
Proof.
  split; [lia|].
  exact (proj1 (format_time_is_mm_colon_ss 65 ltac:(lia))).
Defined.

(** Two different times below a hundred minutes never get the same
    label. *)
Theorem format_time_injective (s1 s2 : Z) :
  0 <= s1 < 6000 -> 0 <= s2 < 6000 ->
  format_time s1 = format_time s2 -> s1 = s2.
Proof.
  intros H1 H2 Heq.
  rewrite <- (proj2 (format_time_entry s1 H1)).
  rewrite <- (proj2 (format_time_entry s2 H2)).
  now rewrite Heq.
Qed.

Lemma format_time_injective_witness :
  0 <= 1500 < 6000 /\ 0 <= 25 * 60 < 6000 /\ 1500 = 25 * 60.
Proof.
  split; [lia|]. split; [lia|].
  exact (format_time_injective 1500 (25 * 60) ltac:(lia) ltac:(lia) eq_refl).
Defined.

(** In every state either window reaches, the label made from
    [remaining_time] is a five-character [MM:SS] that reads back as that
    very number of seconds, between 00:01 and 25:00. *)
Theorem time_label_always_well_formed :
  (forall acts : list Baseline.Action,
     String.length
       (format_time (Baseline.remaining_time (Baseline.run acts Baseline.init)))
     = 5%nat /\
     read_label
       (format_time (Baseline.remaining_time (Baseline.run acts Baseline.init)))
     = Baseline.remaining_time (Baseline.run acts Baseline.init) /\
     1 <= Baseline.remaining_time (Baseline.run acts Baseline.init) <= 1500) /\
  (forall acts : list Merged.Action,
     String.length
       (format_time (Merged.remaining_time (Merged.run acts Merged.init)))
     = 5%nat /\
     read_label
       (format_time (Merged.remaining_time (Merged.run acts Merged.init)))
     = Merged.remaining_time (Merged.run acts Merged.init) /\
     1 <= Merged.remaining_time (Merged.run acts Merged.init) <= 1500).
Proof.
  split; intros acts.
  - pose proof (baseline_inv_run acts _ baseline_inv_init) as [H _].
    unfold POMODORO_DURATION in H.
    destruct (format_time_entry
                (Baseline.remaining_time (Baseline.run acts Baseline.init))
                ltac:(lia)) as [Hfmt Hread].
    split; [now rewrite Hfmt|]. split; [exact Hread | lia].
  - pose proof (merged_inv_run acts _ merged_inv_init) as [H _].
    unfold POMODORO_DURATION in H.
    destruct (format_time_entry
                (Merged.remaining_time (Merged.run acts Merged.init))
                ltac:(lia)) as [Hfmt Hread].
    split; [now rewrite Hfmt|]. split; [exact Hread | lia].
Qed.

(** ** The task list *)

Lemma add_items_from (l : list string) :
  forall acc, fold_left (fun items task => items ++ [task]) l acc = acc ++ l.
Proof.
  induction l as [| x l IH]; intros acc; cbn [fold_left].
  - now rewrite app_nil_r.
  - rewrite IH, <- app_assoc. reflexivity.
Qed.

Lemma update_task_list_mirrors (s : Tasks.t) :
  Tasks.update_task_list s = Tasks.mk (Tasks.tasks s) (Tasks.tasks s).
Proof. unfold Tasks.update_task_list. now rewrite add_items_from. Qed.

Lemma set_item_length (l : list string) :
  forall i v, length (Tasks.set_item l i v) = length l.
Proof.
  induction l as [| x l IH]; intros [| i] v; cbn; try reflexivity.
  now rewrite IH.
Qed.

Lemma set_item_same (l : list string) :
  forall i v, (i < length l)%nat ->
  nth_error (Tasks.set_item l i v) i = Some v.
Proof.
  induction l as [| x l IH]; intros [| i] v Hi; cbn in *; try lia.
  - reflexivity.
  - apply IH. lia.
Qed.

Lemma set_item_other (l : list string) :
  forall i j v, j <> i ->
  nth_error (Tasks.set_item l i v) j = nth_error l j.
Proof.
  induction l as [| x l IH]; intros [| i] [| j] v Hj; cbn; try reflexivity;
    try congruence.
  apply IH. congruence.
Qed.

Lemma set_item_unchanged (l : list string) :
  forall i v, nth_error l i = Some v -> Tasks.set_item l i v = l.
Proof.
  induction l as [| x l IH]; intros [| i] v Hv; cbn in *; try discriminate.
  - congruence.
  - now rewrite IH.
Qed.

Lemma set_item_forall (P : string -> Prop) (l : list string) :
  forall i v, Forall P l -> P v -> Forall P (Tasks.set_item l i v).
Proof.
  induction l as [| x l IH]; intros [| i] v Hl Hv; cbn; try constructor;
    inversion Hl; subst; auto.
Qed.

Lemma pop_item_length (l : list string) :
  forall i, (i < length l)%nat ->
  S (length (Tasks.pop_item l i)) = length l.
Proof.
  induction l as [| x l IH]; intros [| i] Hi; cbn in *; try lia.
  rewrite IH by lia. reflexivity.
Qed.

Lemma pop_item_before (l : list string) :
  forall i j, (j < i)%nat ->
  nth_error (Tasks.pop_item l i) j = nth_error l j.
Proof.
  induction l as [| x l IH]; intros [| i] [| j] Hj; cbn; try reflexivity;
    try lia.
  apply IH. lia.
Qed.

Lemma pop_item_after (l : list string) :
  forall i j, (i <= j)%nat ->
  nth_error (Tasks.pop_item l i) j = nth_error l (S j).
Proof.
  induction l as [| x l IH]; intros [| i] [| j] Hj; cbn; try reflexivity;
    try lia.
  apply IH. lia.
Qed.

Lemma pop_item_last (l : list string) (x : string) :
  Tasks.pop_item (l ++ [x]) (length l) = l.
Proof. induction l as [| y l IH]; cbn; [reflexivity | now rewrite IH]. Qed.

Lemma pop_item_forall (P : string -> Prop) (l : list string) :
  forall i, Forall P l -> Forall P (Tasks.pop_item l i).
Proof.
  induction l as [| x l IH]; intros [| i] Hl; cbn; try constructor;
    inversion Hl; subst; auto.
Qed.

Lemma accepted_nonempty (text : string) (ok : bool) :
  Tasks.accepted text ok = true -> ok = true /\ text <> "".
Proof.
  unfold Tasks.accepted. intros H. apply andb_true_iff in H.
  destruct H as [Hok Hne]. split; [exact Hok|].
  apply negb_true_iff in Hne. now apply String.eqb_neq.
Qed.

Lemma tasks_exec_inv (act : Tasks.Action) (s s' : Tasks.t) :
  Tasks.task_list s = Tasks.tasks s ->
  Forall (fun t => t <> "") (Tasks.tasks s) ->
  Tasks.exec act s = Some s' ->
  Tasks.task_list s' = Tasks.tasks s' /\
  Forall (fun t => t <> "") (Tasks.tasks s').
Proof.
  intros Hsync Hne. destruct act as [text ok | row dialog | row];
    cbn [Tasks.exec].
  - unfold Tasks.add_task.
    destruct (Tasks.accepted text ok) eqn:Hacc; intros [= <-].
    + rewrite update_task_list_mirrors. cbn. split; [reflexivity|].
      apply Forall_app. split; [exact Hne|].
      constructor; [apply (accepted_nonempty _ _ Hacc) | constructor].
    + now split.
  - unfold Tasks.edit_task. destruct (0 <=? row); [|intros [= <-]; now split].
    destruct (nth_error (Tasks.tasks s) (Z.to_nat row)) as [cur |];
      [|discriminate].
    destruct (dialog cur) as [text ok].
    destruct (Tasks.accepted text ok) eqn:Hacc; intros [= <-].
    + rewrite update_task_list_mirrors. cbn. split; [reflexivity|].
      apply set_item_forall; [exact Hne | apply (accepted_nonempty _ _ Hacc)].
    + now split.
  - unfold Tasks.delete_task. destruct (0 <=? row); [|intros [= <-]; now split].
    destruct (Z.to_nat row <? length (Tasks.tasks s))%nat; [|discriminate].
    intros [= <-]. rewrite update_task_list_mirrors. cbn.
    split; [reflexivity | now apply pop_item_forall].
Qed.

Lemma tasks_run_inv (acts : list Tasks.Action) :
  forall s s',
  Tasks.task_list s = Tasks.tasks s ->
  Forall (fun t => t <> "") (Tasks.tasks s) ->
  Tasks.run acts s = Some s' ->
  Tasks.task_list s' = Tasks.tasks s' /\
  Forall (fun t => t <> "") (Tasks.tasks s').
Proof.
  induction acts as [| act acts IH]; intros s s' Hsync Hne; cbn [Tasks.run].
  - intros [= <-]. now split.
  - destruct (Tasks.exec act s) as [s1 |] eqn:Hexec; [|discriminate].
    destruct (tasks_exec_inv act s s1 Hsync Hne Hexec) as [Hsync1 Hne1].
    now apply IH.
Qed.

Lemma task_widget_mirrors_tasks_aux (acts : list Tasks.Action) (s : Tasks.t) :
  Tasks.run acts Tasks.init = Some s ->
  Tasks.task_list s = Tasks.tasks s.
Proof.
  intros Hrun.
  apply (tasks_run_inv acts Tasks.init s eq_refl (Forall_nil _) Hrun).
Qed.

(** After any sequence of Add, Edit and Delete clicks that raised no
    exception, the list widget shows exactly the tasks, in their order. *)
Theorem task_widget_mirrors_tasks (acts : list Tasks.Action) (s : Tasks.t) :
  Tasks.run acts Tasks.init = Some s ->
  Tasks.task_list s = Tasks.tasks s.
Proof.
  intros Hrun.
  apply (tasks_run_inv acts Tasks.init s eq_refl (Forall_nil _) Hrun).
Qed.

Lemma task_widget_mirrors_tasks_witness :
  Tasks.run [Tasks.Add "write" true; Tasks.Add "read" true; Tasks.Delete 0]
    Tasks.init
  = Some (Tasks.mk ["read"] ["read"]) /\
  Tasks.task_list (Tasks.mk ["read"] ["read"])
  = Tasks.tasks (Tasks.mk ["read"] ["read"]).
Proof.
  split; [reflexivity|].
  exact (task_widget_mirrors_tasks
           [Tasks.Add "write" true; Tasks.Add "read" true; Tasks.Delete 0]
           (Tasks.mk ["read"] ["read"]) eq_refl).
Defined.

(** No sequence of clicks stores an empty task: Add and Edit drop an
    empty text like a cancelled dialog. *)
Theorem no_empty_task_is_stored (acts : list Tasks.Action) (s : Tasks.t) :
  Tasks.run acts Tasks.init = Some s ->
  Forall (fun t => t <> "") (Tasks.tasks s).
Proof.
  intros Hrun.
  apply (tasks_run_inv acts Tasks.init s eq_refl (Forall_nil _) Hrun).
Qed.

Lemma no_empty_task_is_stored_witness :
  Tasks.run [Tasks.Add "" true; Tasks.Add "read" true;
             Tasks.Edit 0 (fun _ => ("", true))] Tasks.init
  = Some (Tasks.mk ["read"] ["read"]) /\
  Forall (fun t => t <> "") ["read"].
Proof.
  split; [reflexivity|].
  exact (no_empty_task_is_stored
           [Tasks.Add "" true; Tasks.Add "read" true;
            Tasks.Edit 0 (fun _ => ("", true))]
           (Tasks.mk ["read"] ["read"]) eq_refl).
Defined.

Lemma row_past_the_end_aux
  (row : Z) (dialog : string -> string * bool) (s : Tasks.t) :
  (Tasks.edit_task row dialog s = None
   <-> Z.of_nat (length (Tasks.tasks s)) <= row) /\
  (Tasks.delete_task row s = None
   <-> Z.of_nat (length (Tasks.tasks s)) <= row).
Proof.
  unfold Tasks.edit_task, Tasks.delete_task.
  destruct (Z.leb_spec 0 row) as [Hrow | Hrow].
  - split.
    + destruct (nth_error (Tasks.tasks s) (Z.to_nat row)) as [cur |] eqn:Hnth.
      * assert (Hlt : (Z.to_nat row < length (Tasks.tasks s))%nat)
          by (apply nth_error_Some; congruence).
        destruct (dialog cur) as [text ok].
        destruct (Tasks.accepted text ok); split; intros H;
          try discriminate; lia.
      * apply nth_error_None in Hnth. split; intros _; [lia | reflexivity].
    + destruct (Nat.ltb_spec (Z.to_nat row) (length (Tasks.tasks s)))
        as [Hlt | Hge];
        split; intros Hnone; try discriminate; try reflexivity; lia.
  - split; (split; intros H; [discriminate | lia]).
Qed.

(** Edit and Delete raise [IndexError] exactly when the row is at or
    past the end of [tasks]; a negative row (no selection) is never an
    error. *)
Theorem row_past_the_end_raises
  (row : Z) (dialog : string -> string * bool) (s : Tasks.t) :
  (Tasks.edit_task row dialog s = None
   <-> Z.of_nat (length (Tasks.tasks s)) <= row) /\
  (Tasks.delete_task row s = None
   <-> Z.of_nat (length (Tasks.tasks s)) <= row).
Proof. apply row_past_the_end_aux. Qed.

Lemma row_past_the_end_raises_witness :
  Z.of_nat (length (Tasks.tasks (Tasks.mk ["write"] ["write"]))) <= 1 /\
  Tasks.delete_task 1 (Tasks.mk ["write"] ["write"]) = None.
Proof.
  assert (Hrow : Z.of_nat (length (Tasks.tasks (Tasks.mk ["write"] ["write"])))
                 <= 1) by (cbn; lia).
  split; [exact Hrow|].
  exact (proj2 (proj2 (row_past_the_end_raises 1 (fun t => (t, true))
                         (Tasks.mk ["write"] ["write"]))) Hrow).
Defined.

(** In a state reached without an exception, a row the widget can report
    (from -1, nothing selected, to the last item) makes neither Edit nor
    Delete raise. *)
Theorem widget_row_never_raises
  (acts : list Tasks.Action) (s : Tasks.t)
  (row : Z) (dialog : string -> string * bool) :
  Tasks.run acts Tasks.init = Some s ->
  -1 <= row < Z.of_nat (length (Tasks.task_list s)) ->
  Tasks.edit_task row dialog s <> None /\ Tasks.delete_task row s <> None.
Proof.
  intros Hrun Hrow.
  rewrite (task_widget_mirrors_tasks_aux acts s Hrun) in Hrow.
  destruct (row_past_the_end_aux row dialog s) as [He Hd].
  split; intros H; [apply He in H | apply Hd in H]; lia.
Qed.

Lemma widget_row_never_raises_witness :
  Tasks.run [Tasks.Add "write" true] Tasks.init
  = Some (Tasks.mk ["write"] ["write"]) /\
  -1 <= 0 < Z.of_nat (length (Tasks.task_list (Tasks.mk ["write"] ["write"])))
  /\
  Tasks.delete_task 0 (Tasks.mk ["write"] ["write"]) <> None.
Proof.
  split; [reflexivity|]. split; [cbn; lia|].
  exact (proj2 (widget_row_never_raises [Tasks.Add "write" true]
                  (Tasks.mk ["write"] ["write"]) 0 (fun t => (t, true))
                  eq_refl ltac:(cbn; lia))).
Defined.

(** An accepted Edit replaces the selected task and nothing else: the
    number of tasks and every other position are unchanged. *)
Theorem edit_replaces_one_task
  (row : Z) (dialog : string -> string * bool) (s : Tasks.t)
  (current_task text : string) :
  0 <= row ->
  nth_error (Tasks.tasks s) (Z.to_nat row) = Some current_task ->
  dialog current_task = (text, true) ->
  text <> "" ->
  exists s',
    Tasks.edit_task row dialog s = Some s' /\
    length (Tasks.tasks s') = length (Tasks.tasks s) /\
    nth_error (Tasks.tasks s') (Z.to_nat row) = Some text /\
    (forall j, j <> Z.to_nat row ->
       nth_error (Tasks.tasks s') j = nth_error (Tasks.tasks s) j) /\
    Tasks.task_list s' = Tasks.tasks s'.
Proof.
  intros Hrow Hnth Hdialog Htext. unfold Tasks.edit_task.
  replace (0 <=? row) with true by (symmetry; apply Z.leb_le; lia).
  rewrite Hnth, Hdialog. unfold Tasks.accepted.
  rewrite (proj2 (String.eqb_neq text "") Htext). cbn [andb negb].
  eexists. split; [reflexivity|].
  rewrite update_task_list_mirrors. cbn [Tasks.tasks Tasks.task_list].
  split; [apply set_item_length|].
  split; [apply set_item_same, nth_error_Some; congruence|].
  split; [intros j Hj; now apply set_item_other | reflexivity].
Qed.

Lemma edit_replaces_one_task_witness :
  0 <= 1 /\
  "rest" <> "" /\
  exists s',
    Tasks.edit_task 1 (fun _ => ("rest", true))
      (Tasks.mk ["write"; "read"] ["write"; "read"]) = Some s' /\
    nth_error (Tasks.tasks s') 1 = Some "rest".
Proof.
  assert (Hne : "rest" <> "") by discriminate.
  split; [lia|]. split; [exact Hne|].
  destruct (edit_replaces_one_task 1 (fun _ => ("rest", true))
              (Tasks.mk ["write"; "read"] ["write"; "read"])
              "read" "rest" ltac:(lia) eq_refl eq_refl Hne)
    as [s' [Hs' [_ [Hrow _]]]].
  exists s'. split; [exact Hs' | exact Hrow].
Defined.

(** Delete removes the selected task and nothing else: one task less, the
    tasks before the row stay where they are, the tasks after it move up
    by one. *)
Theorem delete_removes_one_task (row : Z) (s : Tasks.t) :
  0 <= row < Z.of_nat (length (Tasks.tasks s)) ->
  exists s',
    Tasks.delete_task row s = Some s' /\
    S (length (Tasks.tasks s')) = length (Tasks.tasks s) /\
    (forall j, (j < Z.to_nat row)%nat ->
       nth_error (Tasks.tasks s') j = nth_error (Tasks.tasks s) j) /\
    (forall j, (Z.to_nat row <= j)%nat ->
       nth_error (Tasks.tasks s') j = nth_error (Tasks.tasks s) (S j)) /\
    Tasks.task_list s' = Tasks.tasks s'.
Proof.
  intros Hrow. unfold Tasks.delete_task.
  replace (0 <=? row) with true by (symmetry; apply Z.leb_le; lia).
  replace (Z.to_nat row <? length (Tasks.tasks s))%nat with true
    by (symmetry; apply Nat.ltb_lt; lia).
  eexists. split; [reflexivity|].
  rewrite update_task_list_mirrors. cbn [Tasks.tasks Tasks.task_list].
  split; [apply pop_item_length; lia|].
  split; [intros j Hj; now apply pop_item_before|].
  split; [intros j Hj; now apply pop_item_after | reflexivity].
Qed.

Lemma delete_removes_one_task_witness :
  0 <= 0 < Z.of_nat (length (Tasks.tasks (Tasks.mk ["a"; "b"] ["a"; "b"]))) /\
  exists s',
    Tasks.delete_task 0 (Tasks.mk ["a"; "b"] ["a"; "b"]) = Some s' /\
    S (length (Tasks.tasks s')) = 2%nat.
Proof.
  split; [cbn; lia|].
  destruct (delete_removes_one_task 0 (Tasks.mk ["a"; "b"] ["a"; "b"])
              ltac:(cbn; lia)) as [s' [Hs' [Hlen _]]].
  exists s'. split; [exact Hs' | exact Hlen].
Defined.

(** Adding a task and deleting the last row gives the tasks back. *)
Theorem add_then_delete_last_restores_tasks
  (text : string) (s : Tasks.t) :
  text <> "" ->
  exists s',
    Tasks.delete_task (Z.of_nat (length (Tasks.tasks s)))
      (Tasks.add_task text true s) = Some s' /\
    Tasks.tasks s' = Tasks.tasks s.
Proof.
  intros Htext. unfold Tasks.add_task, Tasks.accepted.
  rewrite (proj2 (String.eqb_neq text "") Htext). cbn [andb negb].
  rewrite update_task_list_mirrors. unfold Tasks.delete_task.
  cbn [Tasks.tasks Tasks.task_list].
  replace (0 <=? Z.of_nat (length (Tasks.tasks s))) with true
    by (symmetry; apply Z.leb_le; lia).
  rewrite Nat2Z.id, length_app. cbn [length].
  replace (length (Tasks.tasks s) <? length (Tasks.tasks s) + 1)%nat
    with true by (symmetry; apply Nat.ltb_lt; lia).
  eexists. split; [reflexivity|].
  rewrite update_task_list_mirrors. cbn [Tasks.tasks].
  apply pop_item_last.
Qed.

Lemma add_then_delete_last_restores_tasks_witness :
  "read" <> "" /\
  exists s',
    Tasks.delete_task 1 (Tasks.add_task "read" true (Tasks.mk ["a"] ["a"]))
    = Some s' /\
    Tasks.tasks s' = ["a"].
Proof.
  assert (Hne : "read" <> "") by discriminate.
  split; [exact Hne|].
  exact (add_then_delete_last_restores_tasks "read"
           (Tasks.mk ["a"] ["a"]) Hne).
Defined.

(** In a state reached without an exception, accepting the Edit dialog
    with the text it was opened with changes nothing. *)
Theorem edit_with_same_text_changes_nothing
  (acts : list Tasks.Action) (s : Tasks.t) (row : Z) :
  Tasks.run acts Tasks.init = Some s ->
  0 <= row < Z.of_nat (length (Tasks.tasks s)) ->
  Tasks.edit_task row (fun current_task => (current_task, true)) s = Some s.
Proof.
  intros Hrun Hrow.
  destruct (tasks_run_inv acts Tasks.init s eq_refl (Forall_nil _) Hrun)
    as [Hsync Hne].
  unfold Tasks.edit_task.
  replace (0 <=? row) with true by (symmetry; apply Z.leb_le; lia).
  destruct (nth_error (Tasks.tasks s) (Z.to_nat row)) as [cur |] eqn:Hnth.
  - assert (Hcur : cur <> "").
    { apply nth_error_In in Hnth.
      exact (proj1 (Forall_forall _ _) Hne cur Hnth). }
    unfold Tasks.accepted.
    rewrite (proj2 (String.eqb_neq cur "") Hcur). cbn [andb negb].
    rewrite update_task_list_mirrors. cbn [Tasks.tasks].
    rewrite (set_item_unchanged _ _ _ Hnth).
    destruct s as [ts items]. cbn in *. now subst.
  - apply nth_error_None in Hnth. lia.
Qed.

Lemma edit_with_same_text_changes_nothing_witness :
  Tasks.run [Tasks.Add "write" true] Tasks.init
  = Some (Tasks.mk ["write"] ["write"]) /\
  0 <= 0 < Z.of_nat (length (Tasks.tasks (Tasks.mk ["write"] ["write"]))) /\
  Tasks.edit_task 0 (fun current_task => (current_task, true))
    (Tasks.mk ["write"] ["write"])
  = Some (Tasks.mk ["write"] ["write"]).
Proof.
  split; [reflexivity|]. split; [cbn; lia|].
  exact (edit_with_same_text_changes_nothing [Tasks.Add "write" true]
           (Tasks.mk ["write"] ["write"]) 0 eq_refl ltac:(cbn; lia)).
Defined.

(** ** A whole session, undisturbed *)

Lemma baseline_run_app (l1 l2 : list Baseline.Action)
  (a : Baseline.PomodoroApp) :
  Baseline.run (l1 ++ l2) a = Baseline.run l2 (Baseline.run l1 a).
Proof. unfold Baseline.run. apply fold_left_app. Qed.

Lemma merged_run_app (l1 l2 : list Merged.Action) (a : Merged.PomodoroApp) :
  Merged.run (l1 ++ l2) a = Merged.run l2 (Merged.run l1 a).
Proof. unfold Merged.run. apply fold_left_app. Qed.

Lemma baseline_one_second_run
  (cs : string) (c r0 d rem : Z) (b1 b2 b3 : bool)
  (ns : list (string * string)) :
  0 < rem ->
  Baseline.run Baseline.one_second
    (Baseline.mk cs c r0
       (Some (TimerThread.mk d rem true false TimerThread.LoopHead))
       b1 b2 b3 ns [])
  = Baseline.mk cs c rem
      (Some (TimerThread.mk d (rem - 1) true false TimerThread.LoopHead))
      b1 b2 b3 ns [].
Proof.
  intros Hrem. unfold Baseline.one_second.
  rewrite !baseline_run_cons. cbn [Baseline.run fold_left Baseline.exec].
  unfold Baseline.worker_step at 2.
  cbn [Baseline.timer_thread]. unfold TimerThread.step, TimerThread.guard.
  thread_fields.
  replace (0 <? rem) with true by (symmetry; apply Z.ltb_lt; lia).
  cbn [andb negb Baseline.pending Baseline.with_thread Baseline.with_pending
       Baseline.current_session Baseline.pomodoro_count
       Baseline.remaining_time Baseline.timer_thread Baseline.start_button
       Baseline.pause_button Baseline.resume_button Baseline.notifications
       app].
  unfold Baseline.dispatch, Baseline.update_time.
  cbn [Baseline.pending Baseline.with_thread Baseline.with_pending
       Baseline.with_remaining
       Baseline.current_session Baseline.pomodoro_count
       Baseline.remaining_time Baseline.timer_thread Baseline.start_button
       Baseline.pause_button Baseline.resume_button Baseline.notifications].
  unfold Baseline.worker_step.
  cbn [Baseline.timer_thread]. unfold TimerThread.step. thread_fields.
  reflexivity.
Qed.

Lemma baseline_seconds_run (n : nat) :
  forall (cs : string) (c r0 d rem : Z) (b1 b2 b3 : bool)
         (ns : list (string * string)),
  Z.of_nat n <= rem ->
  Baseline.run (Baseline.seconds n)
    (Baseline.mk cs c r0
       (Some (TimerThread.mk d rem true false TimerThread.LoopHead))
       b1 b2 b3 ns [])
  = Baseline.mk cs c (if Nat.eqb n 0 then r0 else rem - Z.of_nat n + 1)
      (Some (TimerThread.mk d (rem - Z.of_nat n) true false
               TimerThread.LoopHead))
      b1 b2 b3 ns [].
Proof.
  induction n as [| n IH]; intros cs c r0 d rem b1 b2 b3 ns Hrem.
  - cbn [Baseline.seconds Baseline.run fold_left Nat.eqb Z.of_nat].
    now rewrite Z.sub_0_r.
  - cbn [Baseline.seconds]. rewrite baseline_run_app.
    rewrite baseline_one_second_run by lia.
    rewrite IH by lia. cbn [Nat.eqb].
    replace (rem - 1 - Z.of_nat n) with (rem - Z.of_nat (S n)) by lia.
    destruct n as [| n]; cbn [Nat.eqb]; f_equal; lia.
Qed.

(** The baseline window, from a state with no live thread and an empty
    queue: Start, the seconds of the session with every tick delivered,
    the expiry and its delivery amount to the slot [timer_ended] run on a
    display at 00:01 with the worker finished.  One notification is sent,
    session, counter and remaining time are those of the rotation, no
    countdown is left alive and nothing is queued.  The next session is
    not started, and the buttons stay as Start left them: Start disabled,
    Pause enabled. *)
Theorem baseline_undisturbed_session (a : Baseline.PomodoroApp) :
  Baseline.no_live_thread a = true ->
  Baseline.pending a = [] ->
  Baseline.run
    (Baseline.full_session (session_duration (Baseline.current_session a))) a
  = Baseline.on_timer_ended
      (Baseline.mk (Baseline.current_session a) (Baseline.pomodoro_count a) 1
         (Some (TimerThread.mk
                  (session_duration (Baseline.current_session a)) 0
                  true false TimerThread.Finished))
         false true false (Baseline.notifications a) []) /\
  Baseline.no_live_thread
    (Baseline.run
       (Baseline.full_session
          (session_duration (Baseline.current_session a))) a) = true /\
  Baseline.pending
    (Baseline.run
       (Baseline.full_session
          (session_duration (Baseline.current_session a))) a) = [] /\
  Baseline.notifications
    (Baseline.run
       (Baseline.full_session
          (session_duration (Baseline.current_session a))) a)
  = Baseline.notifications a
    ++ [Baseline.completion_message (Baseline.current_session a)] /\
  (Baseline.start_button
     (Baseline.run
        (Baseline.full_session
           (session_duration (Baseline.current_session a))) a),
   Baseline.pause_button
     (Baseline.run
        (Baseline.full_session
           (session_duration (Baseline.current_session a))) a))
  = (false, true).
Proof.
  intros Hlive Hq.
  pose proof (session_duration_bounds (Baseline.current_session a)) as Hd.
  set (d := session_duration (Baseline.current_session a)) in *.
  assert (Hrun :
    Baseline.run (Baseline.full_session d) a
    = Baseline.on_timer_ended
        (Baseline.mk (Baseline.current_session a)
           (Baseline.pomodoro_count a) 1
           (Some (TimerThread.mk d 0 true false TimerThread.Finished))
           false true false (Baseline.notifications a) [])).
  { unfold Baseline.full_session.
    rewrite baseline_run_app, baseline_run_app.
    assert (Hstart :
      Baseline.run [Baseline.ClickStart; Baseline.Worker] a
      = Baseline.mk (Baseline.current_session a) (Baseline.pomodoro_count a)
          (Baseline.remaining_time a)
          (Some (TimerThread.mk d d true false TimerThread.LoopHead))
          false true false (Baseline.notifications a) []).
    { cbn [Baseline.run fold_left Baseline.exec].
      unfold Baseline.start_timer. rewrite baseline_start_timer_eq, Hlive.
      cbn zeta. fold d. destruct a as [cs c r th b1 b2 b3 ns q].
      cbn in Hq. subst q. reflexivity. }
    rewrite Hstart.
    rewrite baseline_seconds_run by lia.
    rewrite Z2Nat.id by lia.
    replace (d - d) with 0 by lia.
    replace (Z.to_nat d =? 0)%nat with false
      by (symmetry; apply Nat.eqb_neq; lia).
    replace (d - d + 1) with 1 by lia.
    reflexivity. }
  rewrite Hrun. split; [reflexivity|].
  rewrite baseline_notification_sent.
  destruct a as [cs c r th b1 b2 b3 ns q].
  cbn [Baseline.current_session Baseline.pomodoro_count
       Baseline.notifications] in *.
  unfold Baseline.on_timer_ended, Baseline.completion_message,
    Baseline.rotate_session, Baseline.send_notification.
  cbn [Baseline.current_session].
  destruct (String.eqb cs "Work") eqn:Hcs; cbn; rewrite ?Hcs;
    [destruct (_ =? 0)|]; cbn; repeat split; reflexivity.
Qed.

Lemma baseline_undisturbed_session_witness :
  Baseline.no_live_thread Baseline.init = true /\
  Baseline.pending Baseline.init = [] /\
  (Baseline.start_button
     (Baseline.run
        (Baseline.full_session
           (session_duration (Baseline.current_session Baseline.init)))
        Baseline.init),
   Baseline.pause_button
     (Baseline.run
        (Baseline.full_session
           (session_duration (Baseline.current_session Baseline.init)))
        Baseline.init))
  = (false, true).
Proof.
  split; [reflexivity|]. split; [reflexivity|].
  exact (proj2 (proj2 (proj2 (proj2
           (baseline_undisturbed_session Baseline.init eq_refl eq_refl))))).
Defined.

Lemma merged_one_second_run
  (cs : string) (c r0 d rem : Z) (p tr fs : bool)
  (ns : list (string * string)) :
  0 < rem ->
  Merged.run Merged.one_second
    (Merged.mk cs c r0
       (Some (TimerThread.mk d rem true false TimerThread.LoopHead))
       p tr fs ns [])
  = Merged.mk cs c rem
      (Some (TimerThread.mk d (rem - 1) true false TimerThread.LoopHead))
      p tr fs ns [].
Proof.
  intros Hrem. unfold Merged.one_second.
  rewrite !merged_run_cons. cbn [Merged.run fold_left Merged.exec].
  unfold Merged.worker_step at 2.
  cbn [Merged.timer_thread]. unfold TimerThread.step, TimerThread.guard.
  thread_fields.
  replace (0 <? rem) with true by (symmetry; apply Z.ltb_lt; lia).
  cbn [andb negb Merged.pending Merged.with_thread Merged.with_pending
       Merged.current_session Merged.pomodoro_count
       Merged.remaining_time Merged.timer_thread Merged.is_paused
       Merged.timer_running Merged.is_fullscreen Merged.notifications
       app].
  unfold Merged.dispatch, Merged.update_time.
  cbn [Merged.pending Merged.with_thread Merged.with_pending
       Merged.with_remaining
       Merged.current_session Merged.pomodoro_count
       Merged.remaining_time Merged.timer_thread Merged.is_paused
       Merged.timer_running Merged.is_fullscreen Merged.notifications].
  unfold Merged.worker_step.
  cbn [Merged.timer_thread]. unfold TimerThread.step. thread_fields.
  reflexivity.
Qed.

Lemma merged_seconds_run (n : nat) :
  forall (cs : string) (c r0 d rem : Z) (p tr fs : bool)
         (ns : list (string * string)),
  Z.of_nat n <= rem ->
  Merged.run (Merged.seconds n)
    (Merged.mk cs c r0
       (Some (TimerThread.mk d rem true false TimerThread.LoopHead))
       p tr fs ns [])
  = Merged.mk cs c (if Nat.eqb n 0 then r0 else rem - Z.of_nat n + 1)
      (Some (TimerThread.mk d (rem - Z.of_nat n) true false
               TimerThread.LoopHead))
      p tr fs ns [].
Proof.
  induction n as [| n IH]; intros cs c r0 d rem p tr fs ns Hrem.
  - cbn [Merged.seconds Merged.run fold_left Nat.eqb Z.of_nat].
    now rewrite Z.sub_0_r.
  - cbn [Merged.seconds]. rewrite merged_run_app.
    rewrite merged_one_second_run by lia.
    rewrite IH by lia. cbn [Nat.eqb].
    replace (rem - 1 - Z.of_nat n) with (rem - Z.of_nat (S n)) by lia.
    destruct n as [| n]; cbn [Nat.eqb]; f_equal; lia.
Qed.

(** The merged window, from a state with no live thread and an empty
    queue: an undisturbed session amounts to the slot [timer_ended] run
    on a display at 00:01 with the worker finished.  One notification is
    sent, nothing is left alive or queued, and the three flags are back
    to their idle values, so that the primary button starts the next
    session. *)
Theorem merged_undisturbed_session (a : Merged.PomodoroApp) :
  Merged.no_live_thread a = true ->
  Merged.pending a = [] ->
  Merged.run
    (Merged.full_session (session_duration (Merged.current_session a))) a
  = Merged.on_timer_ended
      (Merged.mk (Merged.current_session a) (Merged.pomodoro_count a) 1
         (Some (TimerThread.mk
                  (session_duration (Merged.current_session a)) 0
                  true false TimerThread.Finished))
         false true true (Merged.notifications a) []) /\
  Merged.no_live_thread
    (Merged.run
       (Merged.full_session
          (session_duration (Merged.current_session a))) a) = true /\
  Merged.pending
    (Merged.run
       (Merged.full_session
          (session_duration (Merged.current_session a))) a) = [] /\
  Merged.notifications
    (Merged.run
       (Merged.full_session
          (session_duration (Merged.current_session a))) a)
  = Merged.notifications a
    ++ [Merged.completion_message (Merged.current_session a)] /\
  (Merged.timer_running
     (Merged.run
        (Merged.full_session
           (session_duration (Merged.current_session a))) a),
   Merged.is_paused
     (Merged.run
        (Merged.full_session
           (session_duration (Merged.current_session a))) a),
   Merged.is_fullscreen
     (Merged.run
        (Merged.full_session
           (session_duration (Merged.current_session a))) a))
  = (false, false, false) /\
  Merged.on_primary_button_clicked
    (Merged.run
       (Merged.full_session
          (session_duration (Merged.current_session a))) a)
  = Merged.start_timer
      (Merged.run
         (Merged.full_session
            (session_duration (Merged.current_session a))) a).
Proof.
  intros Hlive Hq.
  pose proof (session_duration_bounds (Merged.current_session a)) as Hd.
  set (d := session_duration (Merged.current_session a)) in *.
  assert (Hrun :
    Merged.run (Merged.full_session d) a
    = Merged.on_timer_ended
        (Merged.mk (Merged.current_session a)
           (Merged.pomodoro_count a) 1
           (Some (TimerThread.mk d 0 true false TimerThread.Finished))
           false true true (Merged.notifications a) [])).
  { unfold Merged.full_session.
    rewrite merged_run_app, merged_run_app.
    assert (Hstart :
      Merged.run [Merged.StartTimer; Merged.Worker] a
      = Merged.mk (Merged.current_session a) (Merged.pomodoro_count a)
          (Merged.remaining_time a)
          (Some (TimerThread.mk d d true false TimerThread.LoopHead))
          false true true (Merged.notifications a) []).
    { cbn [Merged.run fold_left Merged.exec].
      unfold Merged.start_timer. rewrite merged_start_timer_eq, Hlive.
      cbn zeta. fold d. destruct a as [cs c r th p tr fs ns q].
      cbn in Hq. subst q. reflexivity. }
    rewrite Hstart.
    rewrite merged_seconds_run by lia.
    rewrite Z2Nat.id by lia.
    replace (d - d) with 0 by lia.
    replace (Z.to_nat d =? 0)%nat with false
      by (symmetry; apply Nat.eqb_neq; lia).
    replace (d - d + 1) with 1 by lia.
    reflexivity. }
  rewrite Hrun. split; [reflexivity|].
  rewrite merged_notification_sent.
  destruct a as [cs c r th p tr fs ns q].
  cbn [Merged.current_session Merged.pomodoro_count
       Merged.notifications] in *.
  unfold Merged.on_timer_ended, Merged.completion_message,
    Merged.rotate_session, Merged.send_notification.
  cbn [Merged.current_session].
  destruct (String.eqb cs "Work") eqn:Hcs; cbn; rewrite ?Hcs;
    [destruct (_ =? 0)|]; cbn; repeat split; reflexivity.
Qed.

Lemma merged_undisturbed_session_witness :
  Merged.no_live_thread Merged.init = true /\
  Merged.pending Merged.init = [] /\
  Merged.pending
    (Merged.run
       (Merged.full_session
          (session_duration (Merged.current_session Merged.init)))
       Merged.init) = [].
Proof.
  split; [reflexivity|]. split; [reflexivity|].
  exact (proj1 (proj2 (proj2
           (merged_undisturbed_session Merged.init eq_refl eq_refl)))).
Defined.

(** ** The counter and the log of notifications *)

Lemma baseline_work_notices_step
  (act : Baseline.Action) (a : Baseline.PomodoroApp) :
  Baseline.pomodoro_count (Baseline.exec act a)
  - Z.of_nat (length (filter is_work_notice
                        (Baseline.notifications (Baseline.exec act a))))
  = Baseline.pomodoro_count a
    - Z.of_nat (length (filter is_work_notice (Baseline.notifications a))).
Proof.
  destruct act; cbn [Baseline.exec].
  - destruct (baseline_start_fields a) as [_ [Hc [Hn _]]]. now rewrite Hc, Hn.
  - destruct (baseline_pause_fields a) as [_ [Hc [Hn _]]]. now rewrite Hc, Hn.
  - destruct (baseline_resume_fields a) as [_ [Hc [Hn _]]]. now rewrite Hc, Hn.
  - destruct (baseline_reset_fields a) as [_ [Hc [Hn _]]]. now rewrite Hc, Hn.
  - destruct a; reflexivity.
  - destruct (baseline_worker_fields a) as [_ [Hc [Hn _]]]. now rewrite Hc, Hn.
  - unfold Baseline.dispatch.
    destruct (Baseline.pending a) as [| [sec |] rest] eqn:Hq;
      [reflexivity | destruct a; reflexivity |].
    rewrite baseline_notification_sent.
    destruct (baseline_rotation (Baseline.with_pending rest a))
      as [Hw [Hb _]].
    replace (Baseline.current_session (Baseline.with_pending rest a))
      with (Baseline.current_session a) in * by (destruct a; reflexivity).
    replace (Baseline.pomodoro_count (Baseline.with_pending rest a))
      with (Baseline.pomodoro_count a) in * by (destruct a; reflexivity).
    replace (Baseline.notifications (Baseline.with_pending rest a))
      with (Baseline.notifications a) by (destruct a; reflexivity).
    rewrite filter_app, length_app.
    unfold Baseline.completion_message.
    destruct (String.eqb_spec (Baseline.current_session a) "Work")
      as [Hcs | Hcs].
    + destruct (Hw Hcs) as [Hc _]. rewrite Hc. cbn. lia.
    + destruct (Hb Hcs) as [Hc _]. rewrite Hc. cbn. lia.
Qed.

Lemma merged_work_notices_step
  (act : Merged.Action) (a : Merged.PomodoroApp) :
  Merged.pomodoro_count (Merged.exec act a)
  - Z.of_nat (length (filter is_work_notice
                        (Merged.notifications (Merged.exec act a))))
  = Merged.pomodoro_count a
    - Z.of_nat (length (filter is_work_notice (Merged.notifications a))).
Proof.
  destruct act; cbn [Merged.exec].
  - destruct (merged_start_fields a) as [_ [Hc [Hn _]]]. now rewrite Hc, Hn.
  - destruct (merged_pause_fields a) as [_ [Hc [Hn _]]]. now rewrite Hc, Hn.
  - destruct (merged_resume_fields a) as [_ [Hc [Hn _]]]. now rewrite Hc, Hn.
  - destruct (merged_reset_fields a) as [_ [Hc [Hn _]]]. now rewrite Hc, Hn.
  - destruct a; reflexivity.
  - destruct (merged_primary_fields a) as [_ [Hc Hn]]. now rewrite Hc, Hn.
  - destruct (merged_toggle_fields a) as [_ [Hc [Hn _]]]. now rewrite Hc, Hn.
  - unfold Merged.exit_fullscreen.
    destruct (merged_reset_fields a) as [_ [Hc [Hn _]]]. now rewrite Hc, Hn.
  - destruct (merged_worker_fields a) as [_ [Hc [Hn _]]]. now rewrite Hc, Hn.
  - unfold Merged.dispatch.
    destruct (Merged.pending a) as [| [sec |] rest] eqn:Hq;
      [reflexivity | destruct a; reflexivity |].
    rewrite merged_notification_sent.
    destruct (merged_rotation (Merged.with_pending rest a))
      as [Hw [Hb _]].
    replace (Merged.current_session (Merged.with_pending rest a))
      with (Merged.current_session a) in * by (destruct a; reflexivity).
    replace (Merged.pomodoro_count (Merged.with_pending rest a))
      with (Merged.pomodoro_count a) in * by (destruct a; reflexivity).
    replace (Merged.notifications (Merged.with_pending rest a))
      with (Merged.notifications a) by (destruct a; reflexivity).
    rewrite filter_app, length_app.
    unfold Merged.completion_message.
    destruct (String.eqb_spec (Merged.current_session a) "Work")
      as [Hcs | Hcs].
    + destruct (Hw Hcs) as [Hc _]. rewrite Hc. cbn. lia.
    + destruct (Hb Hcs) as [Hc _]. rewrite Hc. cbn. lia.
Qed.

(** In every state either window reaches, the counter of completed work
    sessions is the number of "Pomodoro Session Complete!" notifications
    sent so far: a work session is counted exactly when it is announced. *)
Theorem counter_equals_work_notifications :
  (forall acts : list Baseline.Action,
     Baseline.pomodoro_count (Baseline.run acts Baseline.init)
     = Z.of_nat
         (length (filter is_work_notice
                    (Baseline.notifications
                       (Baseline.run acts Baseline.init))))) /\
  (forall acts : list Merged.Action,
     Merged.pomodoro_count (Merged.run acts Merged.init)
     = Z.of_nat
         (length (filter is_work_notice
                    (Merged.notifications (Merged.run acts Merged.init))))).
Proof.
  split; intros acts.
  - assert (H : forall a,
              Baseline.pomodoro_count (Baseline.run acts a)
              - Z.of_nat (length (filter is_work_notice
                    (Baseline.notifications (Baseline.run acts a))))
              = Baseline.pomodoro_count a
                - Z.of_nat (length (filter is_work_notice
                                      (Baseline.notifications a)))).
    { induction acts as [| act acts IH]; intros a; [reflexivity|].
      rewrite baseline_run_cons, IH. apply baseline_work_notices_step. }
    specialize (H Baseline.init). cbn in H. lia.
  - assert (H : forall a,
              Merged.pomodoro_count (Merged.run acts a)
              - Z.of_nat (length (filter is_work_notice
                    (Merged.notifications (Merged.run acts a))))
              = Merged.pomodoro_count a
                - Z.of_nat (length (filter is_work_notice
                                      (Merged.notifications a)))).
    { induction acts as [| act acts IH]; intros a; [reflexivity|].
      rewrite merged_run_cons, IH. apply merged_work_notices_step. }
    specialize (H Merged.init). cbn in H. lia.
Qed.

(** ** Pause and Resume at the level of the window *)

(** In both windows a second Pause in a row, and a second Resume in a
    row, change nothing. *)
Theorem pause_and_resume_are_idempotent :
  (forall a : Baseline.PomodoroApp,
     Baseline.pause_timer (Baseline.pause_timer a) = Baseline.pause_timer a /\
     Baseline.resume_timer (Baseline.resume_timer a)
     = Baseline.resume_timer a) /\
  (forall a : Merged.PomodoroApp,
     Merged.pause_timer (Merged.pause_timer a) = Merged.pause_timer a /\
     Merged.resume_timer (Merged.resume_timer a) = Merged.resume_timer a).
Proof.
  split; intros [cs c r [[d rem run stp p] |] x1 x2 x3 ns q];
    (split; [| ]); try reflexivity; destruct run; reflexivity.
Qed.

(** A Pause that is followed by Resume before the worker takes its next
    step is invisible to the worker.  In the merged window two clicks on
    the primary button over a live, running worker give the state back;
    in the baseline window Pause then Resume give the thread back, with
    the buttons as Start leaves them. *)
Theorem quick_pause_resume_is_invisible :
  (forall (a : Merged.PomodoroApp) (th : TimerThread.t),
     Merged.timer_thread a = Some th ->
     TimerThread.isFinished th = false ->
     TimerThread.running th = true ->
     Merged.on_primary_button_clicked (Merged.on_primary_button_clicked a)
     = a) /\
  (forall (a : Baseline.PomodoroApp) (th : TimerThread.t),
     Baseline.timer_thread a = Some th ->
     TimerThread.running th = true ->
     Baseline.timer_thread (Baseline.resume_timer (Baseline.pause_timer a))
     = Some th /\
     Baseline.remaining_time (Baseline.resume_timer (Baseline.pause_timer a))
     = Baseline.remaining_time a /\
     (Baseline.start_button (Baseline.resume_timer (Baseline.pause_timer a)),
      Baseline.pause_button (Baseline.resume_timer (Baseline.pause_timer a)),
      Baseline.resume_button (Baseline.resume_timer (Baseline.pause_timer a)))
     = (false, true, false)).
Proof.
  split.
  - intros [cs c r o p tr fs ns q] [d rem run stp pc] Hth Hfin Hrun.
    cbn in Hth, Hfin, Hrun. subst o run.
    destruct pc; try discriminate Hfin; reflexivity.
  - intros [cs c r o b1 b2 b3 ns q] [d rem run stp pc] Hth Hrun.
    cbn in Hth, Hrun. subst o run. repeat split; reflexivity.
Qed.

Lemma quick_pause_resume_is_invisible_witness :
  Merged.timer_thread
    (Merged.run [Merged.StartTimer; Merged.Worker; Merged.Worker] Merged.init)
  = Some (TimerThread.mk 1500 1500 true false TimerThread.Sleeping) /\
  Merged.on_primary_button_clicked
    (Merged.on_primary_button_clicked
       (Merged.run [Merged.StartTimer; Merged.Worker; Merged.Worker]
          Merged.init))
  = Merged.run [Merged.StartTimer; Merged.Worker; Merged.Worker] Merged.init.
Proof.
  split; [reflexivity|].
  exact (proj1 quick_pause_resume_is_invisible
           (Merged.run [Merged.StartTimer; Merged.Worker; Merged.Worker]
              Merged.init)
           (TimerThread.mk 1500 1500 true false TimerThread.Sleeping)
           eq_refl eq_refl eq_refl).
Defined.

(** ** Reset and quit *)




(** Reset twice is Reset once: exactly so in the merged window, and in
    the baseline window for everything but the flags of the joined
    thread. *)
Theorem reset_is_idempotent :
  (forall a : Merged.PomodoroApp,
     Merged.reset_timer (Merged.reset_timer a) = Merged.reset_timer a) /\
  (forall a : Baseline.PomodoroApp,
     Baseline.current_session (Baseline.reset_timer (Baseline.reset_timer a))
     = Baseline.current_session (Baseline.reset_timer a) /\
     Baseline.pomodoro_count (Baseline.reset_timer (Baseline.reset_timer a))
     = Baseline.pomodoro_count (Baseline.reset_timer a) /\
     Baseline.remaining_time (Baseline.reset_timer (Baseline.reset_timer a))
     = Baseline.remaining_time (Baseline.reset_timer a) /\
     Baseline.pending (Baseline.reset_timer (Baseline.reset_timer a))
     = Baseline.pending (Baseline.reset_timer a) /\
     Baseline.no_live_thread (Baseline.reset_timer (Baseline.reset_timer a))
     = true).
Proof.
  split; intros a.
  - pose proof (merged_reset_no_live_thread a) as Hth.
    destruct (merged_reset_fields a) as [Hs [_ [_ [Hr Hflags]]]].
    rewrite <- Hs in Hr.
    destruct (Merged.reset_timer a) as [cs c r th x1 x2 x3 ns q].
    cbn in Hth, Hr, Hflags. subst th r.
    injection Hflags as -> -> ->.
    reflexivity.
  - destruct (baseline_reset_fields (Baseline.reset_timer a))
      as [Hs [Hc [_ [Hr _]]]].
    destruct (baseline_reset_fields a) as [Hs0 [_ [_ [Hr0 _]]]].
    split; [exact Hs|]. split; [exact Hc|].
    split; [now rewrite Hr, Hr0, Hs0|].
    split; [|apply baseline_reset_no_live_thread].
    pose proof (baseline_reset_no_live_thread a) as Hfin.
    destruct (Baseline.reset_timer a) as [cs c r [th |] b1 b2 b3 ns q];
      unfold Baseline.reset_timer; cbn [Baseline.timer_thread];
      [|reflexivity].
    unfold Baseline.no_live_thread in Hfin. cbn in Hfin.
    assert (Hw : TimerThread.wait (TimerThread.stop th)
                 = (TimerThread.stop th, [])).
    { unfold TimerThread.wait. apply run_thread_of_finished.
      destruct th as [d rem run stp p]. exact Hfin. }
    rewrite Hw. cbn. apply app_nil_r.
Qed.


(** ** A pause before the worker has entered [run] *)

(** A pause that comes between [start()] and the first statement of
    [run] is lost, because [run] begins with [self.running = True].  In
    the merged window the toggle of the fullscreen view then shows a
    paused timer ([is_paused] set) while the worker emits its first tick;
    in the baseline window [pause_timer] does nothing at all, because
    [running] is still false. *)
Theorem pause_before_run_is_lost :
  (forall a : Merged.PomodoroApp,
     Merged.no_live_thread a = true ->
     Merged.pending a = [] ->
     Merged.is_paused
       (Merged.run [Merged.StartTimer; Merged.TogglePause;
                    Merged.Worker; Merged.Worker] a) = true /\
     Merged.pending
       (Merged.run [Merged.StartTimer; Merged.TogglePause;
                    Merged.Worker; Merged.Worker] a)
     = [time_updated (session_duration (Merged.current_session a))]) /\
  (forall a : Baseline.PomodoroApp,
     Baseline.no_live_thread a = true ->
     Baseline.pause_timer (Baseline.start_timer a) = Baseline.start_timer a).
Proof.
  split.
  - intros a Hlive Hq.
    pose proof (session_duration_bounds (Merged.current_session a)) as Hd.
    cbn [Merged.run fold_left Merged.exec].
    unfold Merged.start_timer. rewrite merged_start_timer_eq, Hlive.
    cbn zeta.
    destruct a as [cs c r th x1 x2 x3 ns q].
    cbn [Merged.pending Merged.current_session] in Hq, Hd. subst q.
    cbn [Merged.current_session].
    remember (session_duration cs) as d eqn:Hdef.
    assert (Hpos : (0 <? d) = true) by (apply Z.ltb_lt; lia).
    cbn -[Z.ltb]. unfold TimerThread.guard. cbn -[Z.ltb].
    rewrite Hpos. cbn.
    split; reflexivity.
  - intros a Hlive. unfold Baseline.start_timer.
    rewrite baseline_start_timer_eq, Hlive. cbn zeta.
    destruct a; reflexivity.
Qed.

Lemma pause_before_run_is_lost_witness :
  Merged.no_live_thread Merged.init = true /\
  Merged.pending Merged.init = [] /\
  Merged.is_paused
    (Merged.run [Merged.StartTimer; Merged.TogglePause;
                 Merged.Worker; Merged.Worker] Merged.init) = true /\
  Merged.pending
    (Merged.run [Merged.StartTimer; Merged.TogglePause;
                 Merged.Worker; Merged.Worker] Merged.init)
  = [time_updated (session_duration (Merged.current_session Merged.init))].
Proof.
  split; [reflexivity|]. split; [reflexivity|].
  exact (proj1 pause_before_run_is_lost Merged.init eq_refl eq_refl).
Defined.

(** ** C9: the bound on the remaining time, and on what a tick carries *)

Lemma step_tick_bound (th : TimerThread.t) (n : Z) :
  thread_ok th ->
  In (time_updated n) (snd (TimerThread.step th)) ->
  1 <= n <= TimerThread.duration th /\ TimerThread.duration th <= 1500.
Proof.
  destruct th as [d r run stp p].
  unfold thread_ok, TimerThread.step, TimerThread.guard, POMODORO_DURATION.
  thread_fields. intros [Hd Hr].
  destruct p; thread_fields; try (intros []).
  - destruct (0 <? r) eqn:H0; cbn [andb]; [|intros []].
    apply Z.ltb_lt in H0.
    destruct (run && negb stp); thread_fields; [|intros []].
    intros [[= <-] | []]. lia.
  - destruct (r <=? 0); [intros [Hin | []]; discriminate | intros []].
Qed.

Lemma ticks_down_to_range (d r n : Z) :
  In (time_updated n) (ticks_down_to d r) -> r < n <= d.
Proof.
  unfold ticks_down_to. intros Hin.
  apply in_map_iff in Hin. destruct Hin as [x [[= <-] Hin]].
  apply in_map_iff in Hin. destruct Hin as [k [<- Hin]].
  apply in_seq in Hin. lia.
Qed.

Lemma schedule_tick_bound (d : Z) (es : list TimerThread.Event) (n : Z) :
  In (time_updated n) (snd (TimerThread.schedule es (TimerThread.init d))) ->
  1 <= n <= d.
Proof.
  assert (Hinit : schedule_inv d (TimerThread.init d, []))
    by (split; reflexivity).
  pose proof (schedule_inv_events d es _ Hinit) as Hinv.
  unfold TimerThread.schedule.
  destruct (fold_left _ es _) as [[d0 r run stp p] out].
  unfold schedule_inv in Hinv. cbn [fst snd] in *.
  thread_fields_in Hinv.
  destruct Hinv as [-> Hinv]. intros Hin.
  destruct p.
  - subst out. destruct Hin.
  - destruct Hinv as [Hr ->]. apply ticks_down_to_range in Hin. lia.
  - destruct Hinv as [Hr ->]. apply ticks_down_to_range in Hin. lia.
  - destruct Hinv as [Hr ->]. apply ticks_down_to_range in Hin. lia.
  - destruct Hinv as [Hr ->]. apply in_app_or in Hin.
    destruct Hin as [Hin | Hin].
    + apply ticks_down_to_range in Hin. lia.
    + destruct (r <=? 0); [destruct Hin as [Hin | []]; discriminate
                          | destruct Hin].
Qed.

(** C9, amended: in every state either window reaches from its initial
    state, by any sequence of clicks, worker steps and deliveries,
    [remaining_time] lies in [0, 1500], the longest of the three
    durations (it is in fact never 0).  It equals the duration of the
    current session right after [set_session], [reset_timer] and the slot
    [timer_ended].  A delivered tick sets it to the value the worker
    emitted, and that value is bounded by the duration the countdown was
    started with: in every reachable state a tick the worker emits lies
    between 1 and the [duration] of its thread, which [start_timer] took
    from the session current at that moment; and, whatever calls of
    [pause], [resume] and [stop] are interleaved with its steps, a worker
    created with duration [d] emits only ticks between 1 and [d]. *)
Theorem remaining_time_within_longest_duration :
  (forall acts : list Baseline.Action,
     0 <= Baseline.remaining_time (Baseline.run acts Baseline.init)
       <= 1500 /\
     0 < Baseline.remaining_time (Baseline.run acts Baseline.init)) /\
  (forall (t : string) (sec : Z) (a : Baseline.PomodoroApp),
     Baseline.remaining_time (Baseline.set_session t a)
     = session_duration (Baseline.current_session (Baseline.set_session t a))
     /\
     Baseline.remaining_time (Baseline.reset_timer a)
     = session_duration (Baseline.current_session (Baseline.reset_timer a))
     /\
     Baseline.remaining_time (Baseline.on_timer_ended a)
     = session_duration
         (Baseline.current_session (Baseline.on_timer_ended a)) /\
     Baseline.remaining_time (Baseline.update_time sec a) = sec) /\
  (forall (acts : list Baseline.Action) (th : TimerThread.t) (n : Z),
     Baseline.timer_thread (Baseline.run acts Baseline.init) = Some th ->
     In (time_updated n) (snd (TimerThread.step th)) ->
     1 <= n <= TimerThread.duration th /\ TimerThread.duration th <= 1500) /\
  (forall (a : Baseline.PomodoroApp) (n : Z) (rest : list Signal),
     Baseline.pending a = time_updated n :: rest ->
     Baseline.remaining_time (Baseline.dispatch a) = n) /\
  (forall a : Baseline.PomodoroApp,
     Baseline.timer_thread (Baseline.start_timer a)
     = Some (TimerThread.init
               (session_duration (Baseline.current_session a)))) /\
  (forall acts : list Merged.Action,
     0 <= Merged.remaining_time (Merged.run acts Merged.init) <= 1500 /\
     0 < Merged.remaining_time (Merged.run acts Merged.init)) /\
  (forall (t : string) (sec : Z) (a : Merged.PomodoroApp),
     Merged.remaining_time (Merged.set_session t a)
     = session_duration (Merged.current_session (Merged.set_session t a)) /\
     Merged.remaining_time (Merged.reset_timer a)
     = session_duration (Merged.current_session (Merged.reset_timer a)) /\
     Merged.remaining_time (Merged.on_timer_ended a)
     = session_duration (Merged.current_session (Merged.on_timer_ended a)) /\
     Merged.remaining_time (Merged.update_time sec a) = sec) /\
  (forall (acts : list Merged.Action) (th : TimerThread.t) (n : Z),
     Merged.timer_thread (Merged.run acts Merged.init) = Some th ->
     In (time_updated n) (snd (TimerThread.step th)) ->
     1 <= n <= TimerThread.duration th /\ TimerThread.duration th <= 1500) /\
  (forall (a : Merged.PomodoroApp) (n : Z) (rest : list Signal),
     Merged.pending a = time_updated n :: rest ->
     Merged.remaining_time (Merged.dispatch a) = n) /\
  (forall a : Merged.PomodoroApp,
     Merged.timer_thread (Merged.start_timer a)
     = Some (TimerThread.init
               (session_duration (Merged.current_session a)))) /\
  (forall (d : Z) (es : list TimerThread.Event) (n : Z),
     In (time_updated n)
        (snd (TimerThread.schedule es (TimerThread.init d))) ->
     1 <= n <= d).
Proof.
  repeat match goal with |- (forall _, _) /\ _ => split end.
  - intros acts.
    pose proof (baseline_inv_run acts _ baseline_inv_init) as [H _].
    unfold POMODORO_DURATION in H. lia.
  - intros t sec a. split; [destruct a; reflexivity|].
    split; [|split; [apply baseline_rotation | destruct a; reflexivity]].
    destruct (baseline_reset_fields a) as [Hs [_ [_ [Hr _]]]].
    now rewrite Hr, Hs.
  - intros acts th n Hth Hin.
    pose proof (baseline_inv_run acts _ baseline_inv_init) as [_ [Hok _]].
    rewrite Hth in Hok. exact (step_tick_bound th n Hok Hin).
  - intros a n rest Hq. unfold Baseline.dispatch. rewrite Hq.
    destruct a; reflexivity.
  - intros a. apply baseline_start_fields.
  - intros acts.
    pose proof (merged_inv_run acts _ merged_inv_init) as [H _].
    unfold POMODORO_DURATION in H. lia.
  - intros t sec a. split; [destruct a; reflexivity|].
    split; [|split; [apply merged_rotation | destruct a; reflexivity]].
    destruct (merged_reset_fields a) as [Hs [_ [_ [Hr _]]]].
    now rewrite Hr, Hs.
  - intros acts th n Hth Hin.
    pose proof (merged_inv_run acts _ merged_inv_init) as [_ [Hok _]].
    rewrite Hth in Hok. exact (step_tick_bound th n Hok Hin).
  - intros a n rest Hq. unfold Merged.dispatch. rewrite Hq.
    destruct a; reflexivity.
  - intros a. apply merged_start_fields.
  - intros d es n. apply schedule_tick_bound.
Qed.

Lemma remaining_time_within_longest_duration_witness :
  Baseline.timer_thread
    (Baseline.run [Baseline.ClickSession "Short Break"; Baseline.ClickStart;
                   Baseline.Worker] Baseline.init)
  = Some (TimerThread.mk 300 300 true false TimerThread.LoopHead) /\
  In (time_updated 300)
     (snd (TimerThread.step
             (TimerThread.mk 300 300 true false TimerThread.LoopHead))) /\
  1 <= 300 <= 300.
Proof.
  assert (Hin : In (time_updated 300)
                   (snd (TimerThread.step
                           (TimerThread.mk 300 300 true false
                              TimerThread.LoopHead))))
    by (left; reflexivity).
  split; [reflexivity|]. split; [exact Hin|].
  exact (proj1
           (proj1 (proj2 (proj2 remaining_time_within_longest_duration))
              [Baseline.ClickSession "Short Break"; Baseline.ClickStart;
               Baseline.Worker]
              (TimerThread.mk 300 300 true false TimerThread.LoopHead)
              300 eq_refl Hin)).
Defined.
